(** * A shallow embedding of the QA automation pipeline

    Sources: [orchestrator.py] ([Orchestrator.run] and the [__main__] entry
    point), [Agents/TC_GENERATOR_AGENT/test_writer_main.py]
    ([TestCaseGeneratorAgent]), [Agents/CODER_AGENT/test_automator_main.py]
    ([CoderAgentShell]) and [Agents/CODE_REVIEWER_AGENT/test_reviewer_main.py]
    ([CodeReviewerAgent]).

    A Python [str] is modelled as its list of Unicode code points ([pystr]);
    a Python [bytes] value as a list of [Byte.byte]. *)

From Stdlib Require Import ZArith List String Ascii Bool Lia.
Import ListNotations.
Open Scope Z_scope.
Set Warnings "-register-all".

(** ** Python strings *)

Definition pystr := list Z.

(** ASCII literal as a [pystr]. *)
Fixpoint lit (s : string) : pystr :=
  match s with
  | EmptyString => []
  | String a s' => Z.of_nat (nat_of_ascii a) :: lit s'
  end.

Definition nl : pystr := [10].

(** Code points for which CPython's [Py_UNICODE_ISSPACE] holds: this is the
    class matched by [\s] in a [str] pattern of [re], and the set stripped by
    [str.strip()]. *)
Definition is_space (c : Z) : bool :=
  ((9 <=? c) && (c <=? 13)) || ((28 <=? c) && (c <=? 32)) ||
  (c =? 133) || (c =? 160) || (c =? 5760) ||
  ((8192 <=? c) && (c <=? 8202)) || (c =? 8232) || (c =? 8233) ||
  (c =? 8239) || (c =? 8287) || (c =? 12288).

Fixpoint prefixb (p l : pystr) : bool :=
  match p, l with
  | [], _ => true
  | a :: p', b :: l' => (a =? b) && prefixb p' l'
  | _ :: _, [] => false
  end.

Fixpoint drop_spaces (l : pystr) : pystr :=
  match l with
  | c :: l' => if is_space c then drop_spaces l' else l
  | [] => []
  end.

(** ** [CoderAgentShell._sanitize_code]

    [re.compile(r"=\s*/\*.*?\*/;", re.DOTALL).sub("= '';// TODO: provide value;", s)].

    [match_at l] is the regular expression tried at the start of [l]; it
    returns the text that follows the match.  [\s*] is greedy, and as the
    next item ['/'] is not a space, backtracking into it can never succeed:
    the only candidate is the maximal run of spaces.  [.*?] with [DOTALL] is
    lazy, so the match ends at the first ["*/;"] after the opening ["/*"]. *)

Definition c_eq : Z := 61.     (* = *)
Definition c_slash : Z := 47.  (* / *)
Definition c_star : Z := 42.   (* * *)

Fixpoint find_close (l : pystr) : option pystr :=
  match l with
  | [] => None
  | _ :: l' => if prefixb (lit "*/;") l then Some (skipn 3 l) else find_close l'
  end.

Definition match_at (l : pystr) : option pystr :=
  match l with
  | c :: r =>
      if c =? c_eq then
        match drop_spaces r with
        | c1 :: c2 :: r' =>
            if (c1 =? c_slash) && (c2 =? c_star) then find_close r' else None
        | _ => None
        end
      else None
  | [] => None
  end.

Definition placeholder_repl : pystr := lit "= '';// TODO: provide value;".

(** [re.sub] scans left to right: at each position it tries the pattern;
    on a match it emits the replacement and resumes after the match,
    otherwise it copies one character.  The pattern never matches the empty
    string.  [fuel] only bounds the recursion; [S (length l)] is enough. *)
Fixpoint sub_go (fuel : nat) (l : pystr) : pystr :=
  match fuel with
  | O => l
  | S f =>
      match l with
      | [] => []
      | c :: r =>
          match match_at l with
          | Some rest => placeholder_repl ++ sub_go f rest
          | None => c :: sub_go f r
          end
      end
  end.

Definition _sanitize_code (code_str : pystr) : pystr :=
  sub_go (S (List.length code_str)) code_str.


(** ** Values, exceptions and observable events *)

(** A JSON value as produced by [json.loads] and written by [json.dump]. *)
Inductive json : Type :=
| JNull
| JBool (b : bool)
| JNum (z : Z)
| JStr (s : pystr)
| JList (l : list json)
| JDict (kv : list (pystr * json)).

(** The exceptions the modelled code can raise. *)
Inductive exn : Type :=
| ParseError                          (* [ET.parse] on a malformed XML file *)
| BackendError (reason : pystr)       (* any exception from the OpenAI client *)
| FileNotFoundError                   (* [open] / [json.load] of a missing file *)
| CalledProcessError (returncode : Z) (output : list Byte.byte)
                                      (* [subprocess.check_output], non-zero exit *)
| OSError (reason : pystr)            (* the subprocess could not be spawned *)
| UnicodeDecodeError.                 (* [bytes.decode()] on invalid UTF-8 *)

(** [str(exc)], as used by the f-string of the advisory step. *)
Definition exn_str (e : exn) : pystr :=
  match e with
  | ParseError => lit "syntax error"
  | BackendError r => r
  | FileNotFoundError => lit "No such file or directory"
  | CalledProcessError _ _ => lit "Command returned non-zero exit status."
  | OSError r => r
  | UnicodeDecodeError => lit "'utf-8' codec can't decode bytes"
  end.

(** One constructor per [print] statement of the sources. *)
Inductive print_line : Type :=
| PGeneratingCases                    (* orchestrator.py:62 *)
| PGeneratingCode                     (* orchestrator.py:65 *)
| PReviewCycle (cycle k : Z)          (* orchestrator.py:69 *)
| PPassed                             (* orchestrator.py:72, "Test suite passed review!" *)
| PReviewFailed                       (* orchestrator.py:76 *)
| PFeedback (fb : pystr)              (* orchestrator.py:77 *)
| PMaxCycles                          (* orchestrator.py:80, "Maximum review cycles reached" *)
| PNotJson (content : pystr)          (* test_writer_main.py:101 *)
| PJsonWritten                        (* test_writer_main.py:113 *)
| PCodeWritten.                       (* test_automator_main.py:172 *)

(** Observable events, recorded in the order they happen. *)
Inductive event : Type :=
| EPrint (p : print_line)
| EExtractLLM     (* chat completion of [TestCaseGeneratorAgent.generate_test_cases] *)
| ESynthesize     (* entry into [CoderAgentShell.run] or [CoderAgentShell.improve_code] *)
| ESynthLLM       (* chat completion of the Coder agent *)
| EReview         (* entry into [CodeReviewerAgent.review_code] *)
| EAdapter        (* [subprocess.check_output] of a test runner *)
| EAdvisory.      (* entry into [CodeReviewerAgent._static_js_review] *)

(** The files under the working directory that the agents share, and the
    trace of events (most recent first). *)
Record St : Type := mkSt {
  st_cases : option json;   (* work_dir/generated_test_cases.json *)
  st_code : option pystr;   (* work_dir/generated_tests/test_generated.spec.js *)
  st_trace : list event
}.

(** ** A state, exception and blocking monad *)

Inductive res (A : Type) : Type :=
| Ok (a : A) (s : St)
| Raised (e : exn) (s : St)
| Hung (s : St).               (* a call that never returns *)
Arguments Ok {A} a s.
Arguments Raised {A} e s.
Arguments Hung {A} s.

Definition M (A : Type) : Type := St -> res A.

Definition ret {A} (a : A) : M A := fun s => Ok a s.
Definition raise {A} (e : exn) : M A := fun s => Raised e s.
Definition bind {A B} (m : M A) (f : A -> M B) : M B :=
  fun s => match m s with
           | Ok a s' => f a s'
           | Raised e s' => Raised e s'
           | Hung s' => Hung s'
           end.
(** [try: m except: h] *)
Definition try_catch {A} (m : M A) (h : exn -> M A) : M A :=
  fun s => match m s with
           | Raised e s' => h e s'
           | r => r
           end.

Declare Scope pipeline_scope.
Notation "x <- m ;; k" := (bind m (fun x => k))
  (at level 61, m at next level, right associativity) : pipeline_scope.
Notation "' pat <- m ;; k" := (bind m (fun x => match x with pat => k end))
  (at level 61, pat pattern, m at next level, right associativity) : pipeline_scope.
Notation "m ;; k" := (bind m (fun _ => k))
  (at level 61, right associativity) : pipeline_scope.
Open Scope pipeline_scope.

Definition emit (ev : event) : M unit :=
  fun s => Ok tt (mkSt (st_cases s) (st_code s) (ev :: st_trace s)).
Definition print (p : print_line) : M unit := emit (EPrint p).

(** Writing the case file and the code file. *)
Definition set_cases (j : json) : M unit :=
  fun s => Ok tt (mkSt (Some j) (st_code s) (st_trace s)).
Definition set_code (c : pystr) : M unit :=
  fun s => Ok tt (mkSt (st_cases s) (Some c) (st_trace s)).

Definition event_eqb (e1 e2 : event) : bool :=
  match e1, e2 with
  | EExtractLLM, EExtractLLM | ESynthesize, ESynthesize | ESynthLLM, ESynthLLM
  | EReview, EReview | EAdapter, EAdapter | EAdvisory, EAdvisory => true
  | EPrint _, EPrint _ => false   (* only the non-print events are counted *)
  | _, _ => false
  end.

Definition count_ev (ev : event) (t : list event) : nat :=
  List.length (List.filter (fun e => event_eqb e ev) t).

(** ** [bytes.decode()]: strict UTF-8, as CPython checks it *)

Definition bv (b : Byte.byte) : Z := Z.of_N (Byte.to_N b).
Definition in_range (lo hi : Z) (b : Byte.byte) : bool := (lo <=? bv b) && (bv b <=? hi).
Definition cont_bits (b : Byte.byte) : Z := Z.land (bv b) 63.

Fixpoint utf8_decode (bs : list Byte.byte) : option pystr :=
  match bs with
  | [] => Some []
  | b0 :: r0 =>
      let x := bv b0 in
      if x <? 128 then option_map (cons x) (utf8_decode r0)
      else if in_range 194 223 b0 then
        match r0 with
        | b1 :: r1 =>
            if in_range 128 191 b1
            then option_map (cons (Z.lor (Z.shiftl (Z.land x 31) 6) (cont_bits b1)))
                   (utf8_decode r1)
            else None
        | [] => None
        end
      else if in_range 224 239 b0 then
        match r0 with
        | b1 :: b2 :: r2 =>
            let lo1 := if x =? 224 then 160 else 128 in
            let hi1 := if x =? 237 then 159 else 191 in
            if in_range lo1 hi1 b1 && in_range 128 191 b2
            then option_map
                   (cons (Z.lor (Z.shiftl (Z.land x 15) 12)
                            (Z.lor (Z.shiftl (cont_bits b1) 6) (cont_bits b2))))
                   (utf8_decode r2)
            else None
        | _ => None
        end
      else if in_range 240 244 b0 then
        match r0 with
        | b1 :: b2 :: b3 :: r3 =>
            let lo1 := if x =? 240 then 144 else 128 in
            let hi1 := if x =? 244 then 143 else 191 in
            if in_range lo1 hi1 b1 && in_range 128 191 b2 && in_range 128 191 b3
            then option_map
                   (cons (Z.lor (Z.shiftl (Z.land x 7) 18)
                            (Z.lor (Z.shiftl (cont_bits b1) 12)
                                   (Z.lor (Z.shiftl (cont_bits b2) 6) (cont_bits b3)))))
                   (utf8_decode r3)
            else None
        | _ => None
        end
      else None
  end.

(** [str.strip()] *)
Definition py_strip (l : pystr) : pystr := rev (drop_spaces (rev (drop_spaces l))).

Definition pystr_eqb (a b : pystr) : bool :=
  if list_eq_dec Z.eq_dec a b then true else false.

(** ** The outside world

    The OpenAI chat completions, [json.loads], the XML parser and the test
    runner processes are not code of this repository: an [Env] fixes what
    each of them does.  The n-th call of a kind is answered by the n-th
    entry (counted from 0 on the trace). *)

Inductive llm_reply : Type :=
| LLMRaise (reason : pystr)      (* the call raised; [str(exc)] is [reason] *)
| LLMText (content : pystr).     (* [response.choices[0].message.content] *)

(** What [subprocess.check_output(cmd, stderr=subprocess.STDOUT)] meets. *)
Inductive proc_result : Type :=
| PExit (returncode : Z) (output : list Byte.byte)  (* combined stdout and stderr *)
| PSpawnFail (reason : pystr)                       (* e.g. [npx] not found *)
| PNeverExits.                                      (* the runner does not terminate *)

Record Env : Type := mkEnv {
  env_xml : option pystr;                      (* [ET.tostring(ET.parse(xml_path).getroot())] *)
  env_extract_llm : pystr -> llm_reply;        (* extraction completion, given the prompt *)
  env_json_loads : pystr -> option json;       (* [json.loads]; [None]: [JSONDecodeError] *)
  env_gen_llm : json -> llm_reply;             (* [_generate_code], prompt built from the cases *)
  env_improve_llm : nat -> pystr -> llm_reply; (* n-th [improve_code] completion, given the prompt *)
  env_proc : nat -> proc_result;               (* n-th test runner process *)
  env_advisory : nat -> llm_reply              (* n-th [_static_js_review] (any exception in it) *)
}.

Section Pipeline.
Context (env : Env).

Definition get : M St := fun s => Ok s s.
Definition hang {A} : M A := fun s => Hung s.

Definition chat_completion (r : llm_reply) : M pystr :=
  match r with
  | LLMRaise reason => raise (BackendError reason)
  | LLMText content => ret content
  end.

(** ** [CodeReviewerAgent] *)

(** [subprocess.check_output(cmd, stderr=subprocess.STDOUT)]: no [timeout]
    argument is passed, so the call waits for the process to exit. *)
Definition check_output : M (list Byte.byte) :=
  s <- get ;;
  let n := count_ev EAdapter (st_trace s) in
  emit EAdapter ;;
  match env_proc env n with
  | PExit returncode output =>
      if returncode =? 0 then ret output
      else raise (CalledProcessError returncode output)
  | PSpawnFail reason => raise (OSError reason)
  | PNeverExits => hang
  end.

Definition decode (output : list Byte.byte) : M pystr :=
  match utf8_decode output with
  | Some t => ret t
  | None => raise UnicodeDecodeError
  end.

Definition _run_pytest : M (bool * pystr) :=
  try_catch
    (check_output ;; ret (true, lit "All Python tests passed successfully."))
    (fun e => match e with
              | CalledProcessError _ output => t <- decode output ;; ret (false, t)
              | _ => raise e
              end).

Definition _run_playwright : M (bool * pystr) :=
  try_catch
    (check_output ;; ret (true, lit "All Playwright tests passed successfully."))
    (fun e => match e with
              | CalledProcessError _ output => t <- decode output ;; ret (false, t)
              | _ => raise e
              end).

Definition _static_js_review : M pystr :=
  s <- get ;;
  let n := count_ev EAdvisory (st_trace s) in
  emit EAdvisory ;;
  content <- chat_completion (env_advisory env n) ;;
  ret (py_strip content).

(** [review_code], for a test file whose [Path.suffix] is [suffix]. *)
Definition review_code (suffix : pystr) : M (bool * pystr) :=
  emit EReview ;;
  '(passed, runtime_feedback) <-
    (if existsb (pystr_eqb suffix) [lit ".js"; lit ".ts"]
     then _run_playwright else _run_pytest) ;;
  static_feedback <-
    (if passed
     then try_catch _static_js_review
            (fun exc => ret (lit "[Static review failed: " ++ exn_str exc ++ lit "]"))
     else ret []) ;;
  let combined_feedback :=
    match static_feedback with
    | [] => runtime_feedback
    | _ => runtime_feedback ++ nl ++ nl ++ lit "[Static Review]" ++ nl ++ static_feedback
    end in
  ret (passed, combined_feedback).

(** ** [TestCaseGeneratorAgent] *)

Definition extraction_instructions : pystr :=
  nl ++
  lit "You are an experienced QA Engineer. Your job is to write test cases for API endpoints." ++ nl ++
  lit "You will receive an XML file (exported from testrail) that contains the test cases for an API endpoint." ++ nl ++
  lit "You will need to convert these XML cases into a uniform text format that can be used to automate the test cases." ++ nl ++
  lit "The test cases should be written in a way that is easy to understand and easy to automate. JSON format with meaningful key names." ++ nl ++
  lit "If there are additional test cases that are not covered by the XML file, you should add them to the test cases." ++ nl ++
  lit "Response Should be pure JSON, no other text, no markdown" ++ nl.

Definition build_prompt (context_tc_xml : pystr) : pystr :=
  extraction_instructions ++ lit "TC_XML_FILE: " ++ context_tc_xml.

Definition parse_xml : M pystr :=
  match env_xml env with
  | Some x => ret x
  | None => raise ParseError
  end.

(** Returns the decoded reply, or Python [None] ([JNull]) when the reply is
    not valid JSON (after printing it); a reply [null] decodes to [None] too. *)
Definition generate_test_cases (context_tc_xml : pystr) : M json :=
  emit EExtractLLM ;;
  response_content <- chat_completion (env_extract_llm env (build_prompt context_tc_xml)) ;;
  match env_json_loads env response_content with
  | Some response_json => ret response_json
  | None => print (PNotJson response_content) ;; ret JNull
  end.

Definition save_test_cases (test_cases : json) : M unit :=
  set_cases test_cases ;;
  print PJsonWritten.

Definition tc_generator_run : M unit :=
  context_tc_xml <- parse_xml ;;
  test_cases <- generate_test_cases context_tc_xml ;;
  match test_cases with
  | JNull => ret tt
  | tc => save_test_cases tc
  end.

(** ** [CoderAgentShell] *)

(** [output_dir / "test_generated.spec.js"], relative to the working directory. *)
Definition code_path : pystr := lit "generated_tests/test_generated.spec.js".

Definition _load_test_cases : M json :=
  s <- get ;;
  match st_cases s with
  | Some tc => ret tc
  | None => raise FileNotFoundError
  end.

Definition _generate_code (test_cases : json) : M pystr :=
  emit ESynthLLM ;;
  chat_completion (env_gen_llm env test_cases).

Definition _save_code (code_str : pystr) : M pystr :=
  set_code code_str ;;
  print PCodeWritten ;;
  ret code_path.

Definition coder_run : M pystr :=
  emit ESynthesize ;;
  test_cases <- _load_test_cases ;;
  code_str <- _generate_code test_cases ;;
  _save_code (_sanitize_code code_str).

(** Reading a text file with universal newlines: ["\r\n"] and ["\r"]
    become ["\n"].  [Path.write_text] writes ["\n"] unchanged (POSIX line
    separator), so [read_text] of a saved text is its translation. *)
Fixpoint translate_newlines (t : pystr) : pystr :=
  match t with
  | 13 :: 10 :: r => 10 :: translate_newlines r
  | 13 :: r => 10 :: translate_newlines r
  | c :: r => c :: translate_newlines r
  | [] => []
  end.

Definition improve_prompt (feedback prev_code : pystr) : pystr :=
  lit "You are an expert QA automation engineer. Improve the following Playwright test code (JavaScript) so that it addresses the feedback below and passes all tests. Return *only* the updated JavaScript code " ++
  [8212] ++ lit " no markdown or commentary." ++ nl ++ nl ++
  lit "FEEDBACK:" ++ nl ++ feedback ++ nl ++ nl ++ lit "PREVIOUS_CODE:" ++ nl ++ prev_code.

(** The completion is answered by [env_improve_llm n], [n] the number of
    completions the Coder agent has requested so far. *)
Definition improve_code (feedback : pystr) : M pystr :=
  emit ESynthesize ;;
  s <- get ;;
  let prev_code := match st_code s with Some c => translate_newlines c | None => [] end in
  let n := count_ev ESynthLLM (st_trace s) in
  emit ESynthLLM ;;
  improved_code <- chat_completion (env_improve_llm env n (improve_prompt feedback prev_code)) ;;
  _save_code (_sanitize_code improved_code).

(** ** [Orchestrator.run] *)

(** How the [for ... else] loop is left: by [break], or by running out of
    cycles (then the [else] clause runs). *)
Inductive loop_exit : Type := LoopBreak | LoopExhausted.

(** [range(a, b)] *)
Definition py_range (a b : Z) : list Z :=
  map (fun i => a + Z.of_nat i) (seq 0 (Z.to_nat (b - a))).

(** [Path("test_generated.spec.js").suffix], the reviewer's test file. *)
Definition reviewer_suffix : pystr := lit ".js".

Fixpoint review_loop (cycles : list Z) (max_review_cycles : Z) : M loop_exit :=
  match cycles with
  | [] => print PMaxCycles ;; ret LoopExhausted
  | cycle :: rest =>
      print (PReviewCycle cycle max_review_cycles) ;;
      '(passed, feedback) <- review_code reviewer_suffix ;;
      if passed then (print PPassed ;; ret LoopBreak)
      else (print PReviewFailed ;;
            print (PFeedback feedback) ;;
            improve_code feedback ;;
            review_loop rest max_review_cycles)
  end.

Definition orchestrator_run (max_review_cycles : Z) : M loop_exit :=
  print PGeneratingCases ;;
  tc_generator_run ;;
  print PGeneratingCode ;;
  coder_run ;;
  review_loop (py_range 1 (max_review_cycles + 1)) max_review_cycles.

(** [Orchestrator(xml, work_dir, ...).run()] on a working directory whose
    case file and code file hold [cases0] and [code0] (they survive from an
    earlier run in the same directory, or are absent). *)
Definition main (cases0 : option json) (code0 : option pystr) (max_review_cycles : Z)
  : res loop_exit :=
  orchestrator_run max_review_cycles (mkSt cases0 code0 []).

End Pipeline.

(** The outcome of a run, and the exit status of [python orchestrator.py]:
    [__main__] calls [run()] and returns, so the interpreter exits with 0;
    an uncaught exception makes it print the traceback and exit with 1. *)
Inductive outcome : Type := Passed | Exhausted | Fatal (e : exn) | Blocked.

Definition outcome_of (r : res loop_exit) : outcome :=
  match r with
  | Ok LoopBreak _ => Passed
  | Ok LoopExhausted _ => Exhausted
  | Raised e _ => Fatal e
  | Hung _ => Blocked
  end.

Definition exit_status (o : outcome) : option Z :=
  match o with
  | Passed | Exhausted => Some 0
  | Fatal _ => Some 1
  | Blocked => None
  end.

Definition res_st {A} (r : res A) : St :=
  match r with Ok _ s | Raised _ s | Hung s => s end.

Definition count_in {A} (ev : event) (r : res A) : nat := count_ev ev (st_trace (res_st r)).

(** ** Closed forms of one review, used by the proofs *)

(** The index of the next test runner process. *)
Definition adapter_index (s : St) : nat := count_ev EAdapter (st_trace s).

Definition adapter_ok_msg (suffix : pystr) : pystr :=
  if existsb (pystr_eqb suffix) [lit ".js"; lit ".ts"]
  then lit "All Playwright tests passed successfully."
  else lit "All Python tests passed successfully.".

Definition adapter_outcome (ok_msg : pystr) (p : proc_result) (s : St) : res (bool * pystr) :=
  let s1 := mkSt (st_cases s) (st_code s) (EAdapter :: st_trace s) in
  match p with
  | PExit code out =>
      if code =? 0 then Ok (true, ok_msg) s1
      else match utf8_decode out with
           | Some t => Ok (false, t) s1
           | None => Raised UnicodeDecodeError s1
           end
  | PSpawnFail r => Raised (OSError r) s1
  | PNeverExits => Hung s1
  end.

Definition advisory_outcome (r : llm_reply) (s : St) : pystr * St :=
  let s1 := mkSt (st_cases s) (st_code s) (EAdvisory :: st_trace s) in
  match r with
  | LLMRaise reason => (lit "[Static review failed: " ++ reason ++ lit "]", s1)
  | LLMText c => (py_strip c, s1)
  end.

Definition combine_feedback (rt sf : pystr) : pystr :=
  match sf with
  | [] => rt
  | _ => rt ++ nl ++ nl ++ lit "[Static Review]" ++ nl ++ sf
  end.

(** ** The Playwright context files

    [CodeReviewerAgent._collect_context_playwright] and the context part of
    [CoderAgentShell._build_prompt].  A file met by [context_dir.rglob("*")]
    is given by the parts of its path relative to [context_dir] (never empty:
    [rglob] yields only entries below the directory), whether it is a regular
    file, its [st_size], and what [read_text(encoding="utf-8",
    errors="ignore")] returns ([None]: the call raised). *)
Record ctx_file : Type := mkFile {
  f_rel_parts : list pystr;
  f_is_file : bool;
  f_size : Z;
  f_read : option pystr
}.

(** [file_path.name], the last part of its path. *)
Definition f_name (f : ctx_file) : pystr := last (f_rel_parts f) [].

Definition py_in (x : pystr) (l : list pystr) : bool := existsb (pystr_eqb x) l.

(** [sep.join(parts)] *)
Fixpoint py_join (sep : pystr) (parts : list pystr) : pystr :=
  match parts with
  | [] => []
  | [x] => x
  | x :: rest => x ++ sep ++ py_join sep rest
  end.

Definition allowed_base_dirs : list pystr := [lit "utils"; lit "globals"; lit "locators"].
Definition always_include_files : list pystr := [lit "playwright.config.js"].

(** [f"FILE: {file_path.name}\\n{content}"]: the source writes ["\\n"], a
    backslash followed by [n] (codes 92 and 110), not a newline. *)
Definition file_entry (name content : pystr) : pystr :=
  lit "FILE: " ++ name ++ [92; 110] ++ content.

(** [next((d for d in candidate_dirs if d.exists()), None)]; a candidate is
    given by [d.exists()] and the listing of [d.rglob("*")]. *)
Definition first_existing (candidate_dirs : list (bool * list ctx_file)) : option (list ctx_file) :=
  option_map snd (find fst candidate_dirs).

(** The loop of [_collect_context_playwright]. *)
Fixpoint collect_parts (files : list ctx_file) : list pystr :=
  match files with
  | [] => []
  | file_path :: rest =>
      if negb (f_is_file file_path) then collect_parts rest else
      let rel_parts := f_rel_parts file_path in
      let include := py_in (hd [] rel_parts) allowed_base_dirs
                     || py_in (f_name file_path) always_include_files in
      let include := include && (f_size file_path <? 30000) in
      if negb include then collect_parts rest else
      let content := match f_read file_path with Some c => c | None => [] end in
      file_entry (f_name file_path) content :: collect_parts rest
  end.

Definition _collect_context_playwright (candidate_dirs : list (bool * list ctx_file)) : pystr :=
  let context_parts :=
    match first_existing candidate_dirs with
    | Some context_dir => collect_parts context_dir
    | None => []
    end in
  py_join (nl ++ nl) context_parts.

(** The test of the loop, and the entry it adds, as functions of a file. *)
Definition ctx_included (f : ctx_file) : bool :=
  f_is_file f &&
  ((py_in (hd [] (f_rel_parts f)) allowed_base_dirs || py_in (f_name f) always_include_files)
   && (f_size f <? 30000)).

Definition ctx_entry (f : ctx_file) : pystr :=
  file_entry (f_name f) (match f_read f with Some c => c | None => [] end).

(** The same loop, as written a second time in [_build_prompt]. *)
Fixpoint build_prompt_parts (files : list ctx_file) : list pystr :=
  match files with
  | [] => []
  | file_path :: rest =>
      if negb (f_is_file file_path) then build_prompt_parts rest else
      let rel_parts := f_rel_parts file_path in
      let include := py_in (hd [] rel_parts) allowed_base_dirs
                     || py_in (f_name file_path) always_include_files in
      let include := include && (f_size file_path <? 30000) in
      if negb include then build_prompt_parts rest else
      let file_content := match f_read file_path with Some c => c | None => [] end in
      file_entry (f_name file_path) file_content :: build_prompt_parts rest
  end.

(** [CoderAgentShell._build_prompt], given [json.dumps(self.test_cases,
    indent=2)] as [json_blob]. *)
Definition _build_prompt (json_blob : pystr) (candidate_dirs : list (bool * list ctx_file)) : pystr :=
  let context_parts :=
    match first_existing candidate_dirs with
    | Some context_dir => build_prompt_parts context_dir
    | None => []
    end in
  let context_blob := py_join (nl ++ nl) context_parts in
  lit "You are an experienced JavaScript test automation developer specialising in Playwright. " ++
  lit "Write Playwright test code (JavaScript) that fulfils the following test cases (provided as JSON). " ++
  lit "Follow the *exact same structure, fixtures, naming conventions and helper function usage* demonstrated in the `CONTEXT_PLAYWRIGHT_FILES` examples so that the newly generated tests are consistent with the existing suite. " ++
  lit "For HTTP requests, use Playwright's built-in APIRequestContext (via the request fixture) or the helper classes provided in the context. Avoid any non-standard dependencies. " ++
  lit "Respond with *pure JavaScript code only* " ++ [8211] ++ lit " no markdown fences or additional explanation." ++ nl ++ nl ++
  lit "TEST_CASES_JSON:" ++ nl ++ json_blob ++ nl ++ nl ++
  lit "CONTEXT_PLAYWRIGHT_FILES:" ++ nl ++ context_blob.

(** The prompt of [CodeReviewerAgent._static_js_review], given the text of
    the generated test file. *)
Definition static_review_prompt (generated_code : pystr) (candidate_dirs : list (bool * list ctx_file)) : pystr :=
  let context_blob := _collect_context_playwright candidate_dirs in
  lit "You are a *senior JavaScript/TypeScript QA engineer* specialising in Playwright. " ++
  lit "Review the following Playwright test code for correctness, maintainability and adherence " ++
  lit "to best practices **given the project context**. Provide concise, actionable feedback." ++ nl ++ nl ++
  lit "GENERATED_TEST_CODE:" ++ nl ++ generated_code ++ nl ++ nl ++
  lit "CONTEXT_PLAYWRIGHT_FILES:" ++ nl ++ context_blob.

(** ** [TestCaseGeneratorAgent.load_json_to_dict]

    [open(file_path, 'r')] either fails with an exception or gives the
    file's bytes; [json.load] reads them as text (the locale encoding,
    UTF-8, strictly, with universal newlines: ["\r\n"] and ["\r"] become
    ["\n"]) and parses the text.  The parser is given by [loads]: a JSON
    value, or the message [str(e)] of its [JSONDecodeError].  The function
    returns a Python value: [None] is [JNull]. *)
Inductive open_result : Type :=
| OpenOk (contents : list Byte.byte)
| OpenErr (e : exn).

(** The lines printed, and the value returned or the exception raised. *)
Definition load_json_to_dict (loads : pystr -> json + pystr) (file_path : pystr)
    (opened : open_result) : list pystr * (json + exn) :=
  match opened with
  | OpenErr FileNotFoundError => ([lit "File not found: " ++ file_path], inl JNull)
  | OpenErr e => ([], inr e)
  | OpenOk contents =>
      match utf8_decode contents with
      | None => ([], inr UnicodeDecodeError)
      | Some text =>
          match loads (translate_newlines text) with
          | inl v => ([], inl v)
          | inr msg => ([lit "Failed to parse JSON: " ++ msg], inl JNull)
          end
      end
  end.

(** ** UTF-8 encoding, [str.encode()]

    What a test runner writes when it prints a text: the UTF-8 encoding of
    its code points, each a Unicode scalar value. *)
Definition is_scalar (c : Z) : bool :=
  (0 <=? c) && (c <? 1114112) && negb ((55296 <=? c) && (c <=? 57343)).

Definition byte_of_Z (z : Z) : Byte.byte :=
  match Byte.of_N (Z.to_N z) with Some b => b | None => Byte.x00 end.

Definition utf8_encode_char (c : Z) : list Byte.byte :=
  if c <? 128 then [byte_of_Z c]
  else if c <? 2048 then [byte_of_Z (192 + c / 64); byte_of_Z (128 + c mod 64)]
  else if c <? 65536 then
    [byte_of_Z (224 + c / 4096); byte_of_Z (128 + (c / 64) mod 64); byte_of_Z (128 + c mod 64)]
  else
    [byte_of_Z (240 + c / 262144); byte_of_Z (128 + (c / 4096) mod 64);
     byte_of_Z (128 + (c / 64) mod 64); byte_of_Z (128 + c mod 64)].

Definition utf8_encode (t : pystr) : list Byte.byte := flat_map utf8_encode_char t.

(** ** Concrete environments for witnesses and counterexamples *)

Definition st0 : St := mkSt None None [].

(** Extraction and synthesis succeed; the runner processes and the
    advisory step behave as given. *)
Definition env_with (proc : nat -> proc_result) (adv : nat -> llm_reply) : Env :=
  mkEnv (Some (lit "<sections/>")) (fun _ => LLMText (lit "{}")) (fun _ => Some (JDict []))
        (fun _ => LLMText (lit "test();")) (fun _ _ => LLMText (lit "test();"))
        proc adv.

(** An environment whose extraction reply is not JSON. *)
Definition env_not_json : Env :=
  mkEnv (Some (lit "<sections/>")) (fun _ => LLMText (lit "Here are the test cases."))
        (fun _ => None)
        (fun _ => LLMText (lit "test();")) (fun _ _ => LLMText (lit "test();"))
        (fun _ => PExit 0 []) (fun _ => LLMText []).

(** An environment whose synthesis reply has a Windows line ending. *)
Definition env_crlf : Env :=
  mkEnv (Some (lit "<sections/>")) (fun _ => LLMText (lit "{}")) (fun _ => Some (JDict []))
        (fun _ => LLMText (lit "a();" ++ [13; 10] ++ lit "b();")) (fun _ _ => LLMText (lit "test();"))
        (fun _ => PExit 0 []) (fun _ => LLMText []).

(** The bytes of an ASCII text. *)
Definition ascii_bytes (t : string) : list Byte.byte :=
  map byte_of_ascii (list_ascii_of_string t).

(** The placeholder shape of the spec's scenario, and a test for an opening
    ["/*"] anywhere in a text. *)
Definition fill_in_placeholder : pystr := lit "= /* fill in later */;".

Fixpoint has_comment_open (l : pystr) : bool :=
  match l with
  | a :: ((b :: _) as t) => ((a =? c_slash) && (b =? c_star)) || has_comment_open t
  | _ => false
  end.

(** ** Lemmas on the sanitizer *)

Arguments match_at : simpl never.

Lemma drop_spaces_suffix (l : pystr) :
  exists p, l = p ++ drop_spaces l /\ forallb is_space p = true.
Proof.
  induction l as [|c l IH]; [exists []; auto|].
  simpl. destruct (is_space c) eqn:E.
  - destruct IH as [p [Hl Hp]]. exists (c :: p). simpl. rewrite E, Hp.
    split; [f_equal; exact Hl | reflexivity].
  - exists []. auto.
Qed.

Lemma drop_spaces_head (l : pystr) c r :
  drop_spaces l = c :: r -> is_space c = false.
Proof.
  induction l as [|a l IH]; simpl; [discriminate|].
  destruct (is_space a) eqn:E; [exact IH|]. intros H; injection H as -> _; exact E.
Qed.

Lemma drop_spaces_hd (l : pystr) c :
  hd_error (drop_spaces l) = Some c -> is_space c = false.
Proof.
  destruct (drop_spaces l) as [|c' r] eqn:E; [discriminate|].
  intros H. injection H as <-. exact (drop_spaces_head _ _ _ E).
Qed.

Lemma drop_spaces_app_spaces (p l : pystr) :
  forallb is_space p = true -> drop_spaces (p ++ l) = drop_spaces l.
Proof.
  induction p as [|a p IH]; simpl; [reflexivity|].
  intros H. apply andb_true_iff in H as [Ha Hp]. rewrite Ha. exact (IH Hp).
Qed.

Lemma drop_spaces_nonspace (l : pystr) :
  (forall c, hd_error l = Some c -> is_space c = false) -> drop_spaces l = l.
Proof.
  destruct l as [|c l]; simpl; [reflexivity|].
  intros H. rewrite (H c eq_refl). reflexivity.
Qed.

Lemma find_close_suffix (l rest : pystr) :
  find_close l = Some rest -> exists p, l = p ++ rest.
Proof.
  induction l as [|c l IH]; cbn [find_close]; [discriminate|].
  destruct (prefixb (lit "*/;") (c :: l)).
  - intros H. injection H as <-. exists (firstn 3 (c :: l)).
    symmetry. apply firstn_skipn.
  - intros H. destruct (IH H) as [p ->]. exists (c :: p). reflexivity.
Qed.

Lemma find_close_app_none (p q : pystr) :
  find_close (p ++ q) = None -> find_close q = None.
Proof.
  induction p as [|c p IH]; cbn [app find_close]; [auto|].
  destruct (prefixb _ _); [discriminate | exact IH].
Qed.

Lemma match_at_head c r rest : match_at (c :: r) = Some rest -> c = c_eq.
Proof.
  unfold match_at. destruct (c =? c_eq) eqn:E; [|discriminate].
  intros _. apply Z.eqb_eq. exact E.
Qed.

Lemma match_at_parts c r rest :
  match_at (c :: r) = Some rest ->
  exists p r', r = p ++ r' /\ find_close r' = Some rest.
Proof.
  unfold match_at. destruct (c =? c_eq); [|discriminate].
  destruct (drop_spaces_suffix r) as [p [Hr _]].
  destruct (drop_spaces r) as [|c1 [|c2 r']]; try discriminate.
  destruct ((c1 =? c_slash) && (c2 =? c_star)); [|discriminate].
  intros H. exists (p ++ [c1; c2]), r'. split; [|exact H].
  rewrite Hr, <- app_assoc. reflexivity.
Qed.

Lemma match_at_suffix c r rest :
  match_at (c :: r) = Some rest -> exists p, r = p ++ rest.
Proof.
  intros H. destruct (match_at_parts c r rest H) as [p [r' [-> Hc]]].
  destruct (find_close_suffix _ _ Hc) as [q ->]. exists (p ++ q).
  apply app_assoc.
Qed.

Lemma sub_go_fuel_irrel : forall n m l,
  (List.length l < n)%nat -> (List.length l < m)%nat -> sub_go n l = sub_go m l.
Proof.
  induction n as [|n IH]; intros m l Hn Hm; [lia|].
  destruct m as [|m]; [lia|].
  destruct l as [|c r]; cbn [sub_go]; [reflexivity|].
  destruct (match_at (c :: r)) as [rest|] eqn:E.
  - f_equal. destruct (match_at_suffix _ _ _ E) as [p ->].
    simpl in Hn, Hm. rewrite length_app in Hn, Hm.
    apply IH; lia.
  - f_equal. simpl in Hn, Hm. apply IH; lia.
Qed.

Lemma sanitize_nil : _sanitize_code [] = [].
Proof. reflexivity. Qed.

Lemma sanitize_cons c r :
  _sanitize_code (c :: r) =
  match match_at (c :: r) with
  | Some rest => placeholder_repl ++ _sanitize_code rest
  | None => c :: _sanitize_code r
  end.
Proof.
  unfold _sanitize_code at 1.
  change (sub_go (S (List.length (c :: r))) (c :: r)) with
    (match match_at (c :: r) with
     | Some rest => placeholder_repl ++ sub_go (S (List.length r)) rest
     | None => c :: sub_go (S (List.length r)) r
     end).
  destruct (match_at (c :: r)) as [rest|] eqn:E; [|reflexivity].
  f_equal. destruct (match_at_suffix _ _ _ E) as [p ->].
  apply sub_go_fuel_irrel; rewrite ?length_app; lia.
Qed.

Lemma sanitize_pass c r :
  (c =? c_eq) = false -> _sanitize_code (c :: r) = c :: _sanitize_code r.
Proof.
  intros H. rewrite sanitize_cons.
  unfold match_at. rewrite H. reflexivity.
Qed.

Lemma sanitize_app_pass (p t : pystr) :
  forallb (fun c => negb (c =? c_eq)) p = true ->
  _sanitize_code (p ++ t) = p ++ _sanitize_code t.
Proof.
  induction p as [|c p IH]; simpl; [reflexivity|].
  intros H. apply andb_true_iff in H as [Hc Hp].
  rewrite sanitize_pass by (apply negb_true_iff; exact Hc).
  f_equal. exact (IH Hp).
Qed.

Lemma sanitize_spaces (p t : pystr) :
  forallb is_space p = true -> _sanitize_code (p ++ t) = p ++ _sanitize_code t.
Proof.
  intros H. apply sanitize_app_pass.
  induction p as [|c p IH]; simpl in *; [reflexivity|].
  apply andb_true_iff in H as [Hc Hp]. rewrite (IH Hp), andb_true_r.
  destruct (c =? c_eq) eqn:E; [|reflexivity].
  apply Z.eqb_eq in E. subst c. discriminate Hc.
Qed.

Lemma sanitize_repl_app (t : pystr) :
  _sanitize_code (placeholder_repl ++ t) = placeholder_repl ++ _sanitize_code t.
Proof.
  assert (Hr : placeholder_repl = 61 :: List.tl placeholder_repl) by reflexivity.
  rewrite Hr, <- app_comm_cons, sanitize_cons.
  replace (match_at (61 :: List.tl placeholder_repl ++ t)) with (@None pystr)
    by reflexivity.
  cbn [app]. f_equal.
Qed.

Lemma sanitize_hd (l : pystr) : hd_error (_sanitize_code l) = hd_error l.
Proof.
  destruct l as [|c r]; [reflexivity|]. rewrite sanitize_cons.
  destruct (match_at (c :: r)) as [rest|] eqn:E; [|reflexivity].
  rewrite (match_at_head _ _ _ E). reflexivity.
Qed.

Lemma sanitize_slash_star (l r : pystr) :
  _sanitize_code l = c_slash :: c_star :: r ->
  exists r0, l = c_slash :: c_star :: r0.
Proof.
  destruct l as [|a l]; [discriminate|]. rewrite sanitize_cons.
  destruct (match_at (a :: l)) as [rest|] eqn:E; [discriminate|].
  intros H. injection H as -> H.
  pose proof (sanitize_hd l) as Hd. rewrite H in Hd.
  destruct l as [|b l]; [discriminate|]. injection Hd as <-.
  exists l. reflexivity.
Qed.

Lemma sanitize_no_close (l : pystr) : find_close l = None -> _sanitize_code l = l.
Proof.
  induction l as [|c l IH]; [reflexivity|]. intros H.
  assert (Hl : find_close l = None).
  { cbn [find_close] in H. destruct (prefixb _ _); [discriminate | exact H]. }
  rewrite sanitize_cons.
  destruct (match_at (c :: l)) as [rest|] eqn:E.
  - exfalso. destruct (match_at_parts _ _ _ E) as [p [r' [Hr Hc]]].
    rewrite Hr in Hl. apply find_close_app_none in Hl. congruence.
  - f_equal. exact (IH Hl).
Qed.

Lemma sanitize_idem_aux : forall n (l : pystr), (List.length l <= n)%nat ->
  _sanitize_code (_sanitize_code l) = _sanitize_code l.
Proof.
  induction n as [|n IH]; intros [|c r] Hl; try reflexivity; [simpl in Hl; lia|].
  simpl in Hl. rewrite (sanitize_cons c r).
  destruct (match_at (c :: r)) as [rest|] eqn:E.
  - rewrite sanitize_repl_app, IH; [reflexivity|].
    destruct (match_at_suffix _ _ _ E) as [p ->]. rewrite length_app in Hl. lia.
  - destruct (c =? c_eq) eqn:Ec.
    + pose proof (drop_spaces_suffix r) as [sp [Hr Hsp]].
      remember (drop_spaces r) as y eqn:Hy.
      unfold match_at in E. rewrite Ec, <- Hy in E.
      destruct y as [|y1 [|y2 r']];
        [| |destruct ((y1 =? c_slash) && (y2 =? c_star)) eqn:Eyy].
      3: { (* the opening "/*" is there but no "*/;" follows: nothing changes *)
        apply andb_true_iff in Eyy as [E1 E2].
        apply Z.eqb_eq in E1, E2. subst y1 y2.
        assert (Hs : _sanitize_code r = r).
        { rewrite Hr, sanitize_spaces by exact Hsp. f_equal.
          rewrite sanitize_pass by reflexivity.
          rewrite sanitize_pass by reflexivity.
          rewrite sanitize_no_close by exact E. reflexivity. }
        rewrite Hs, sanitize_cons.
        unfold match_at at 1. rewrite Ec, <- Hy, E.
        destruct (_ && _); rewrite Hs; reflexivity. }
      all: assert (Hm : match_at (c :: _sanitize_code r) = None);
        [ unfold match_at; rewrite Ec, Hr, sanitize_spaces by exact Hsp;
          rewrite drop_spaces_app_spaces by exact Hsp;
          rewrite drop_spaces_nonspace;
          [| intros c0 Hc0; rewrite sanitize_hd, Hy in Hc0;
             exact (drop_spaces_hd _ _ Hc0) ]
        | rewrite sanitize_cons, Hm, IH by lia; reflexivity ].
      * rewrite sanitize_nil. reflexivity.
      * rewrite (sanitize_cons y1 []).
        destruct (match_at [y1]) eqn:Em; reflexivity.
      * destruct (_sanitize_code (y1 :: y2 :: r')) as [|d1 [|d2 r2]] eqn:Ed;
          try reflexivity.
        destruct ((d1 =? c_slash) && (d2 =? c_star)) eqn:Edd; [|reflexivity].
        apply andb_true_iff in Edd as [E1 E2].
        apply Z.eqb_eq in E1, E2. subst d1 d2.
        destruct (sanitize_slash_star _ _ Ed) as [r0 Hr0].
        injection Hr0 as -> -> _. rewrite !Z.eqb_refl in Eyy. discriminate.
    + rewrite sanitize_pass by exact Ec. rewrite IH by lia. reflexivity.
Qed.

Lemma has_open_app (p : pystr) c1 c2 r :
  (c1 =? c_slash) && (c2 =? c_star) = true ->
  has_comment_open (p ++ c1 :: c2 :: r) = true.
Proof.
  intros H. induction p as [|a p IH].
  - simpl. rewrite H. reflexivity.
  - destruct p as [|b p]; simpl in *; rewrite IH; apply orb_true_r.
Qed.

Lemma has_open_tl a (l : pystr) :
  has_comment_open (a :: l) = false -> has_comment_open l = false.
Proof.
  destruct l as [|b l]; [reflexivity|]. simpl. intros H.
  apply orb_false_iff in H as [_ H]. exact H.
Qed.

Lemma sanitize_no_open (l : pystr) :
  has_comment_open l = false -> _sanitize_code l = l.
Proof.
  induction l as [|a l IH]; [reflexivity|]. intros H.
  rewrite sanitize_cons.
  destruct (match_at (a :: l)) as [rest|] eqn:E.
  - exfalso. unfold match_at in E. destruct (a =? c_eq); [|discriminate].
    destruct (drop_spaces_suffix l) as [sp [Hl _]].
    destruct (drop_spaces l) as [|c1 [|c2 r']]; try discriminate.
    destruct ((c1 =? c_slash) && (c2 =? c_star)) eqn:Ec; [|discriminate].
    apply has_open_tl in H. rewrite Hl, (has_open_app _ _ _ _ Ec) in H.
    discriminate.
  - f_equal. exact (IH (has_open_tl _ _ H)).
Qed.

Lemma sanitize_placeholder_app (post : pystr) :
  _sanitize_code (fill_in_placeholder ++ post) = placeholder_repl ++ _sanitize_code post.
Proof.
  change (fill_in_placeholder ++ post) with (61 :: (List.tl fill_in_placeholder ++ post)).
  rewrite sanitize_cons.
  replace (match_at (61 :: List.tl fill_in_placeholder ++ post)) with (Some post)
    by reflexivity.
  reflexivity.
Qed.

Lemma drop_spaces_app (l t : pystr) y1 r :
  drop_spaces l = y1 :: r -> drop_spaces (l ++ t) = y1 :: r ++ t.
Proof.
  induction l as [|a l IH]; [discriminate|]. simpl.
  destruct (is_space a); [exact IH|]. intros H. injection H as -> ->. reflexivity.
Qed.

Lemma drop_spaces_nil_app (l t : pystr) :
  drop_spaces l = [] -> drop_spaces (l ++ t) = drop_spaces t.
Proof.
  induction l as [|a l IH]; [reflexivity|]. simpl.
  destruct (is_space a); [exact IH|]. discriminate.
Qed.

Lemma sanitize_placeholder_mid (pre post : pystr) :
  has_comment_open pre = false ->
  _sanitize_code (pre ++ fill_in_placeholder ++ post) =
  pre ++ placeholder_repl ++ _sanitize_code post.
Proof.
  induction pre as [|a pre IH]; intros H; [exact (sanitize_placeholder_app post)|].
  pose proof (has_open_tl _ _ H) as H'.
  rewrite <- app_comm_cons, sanitize_cons.
  assert (Hm : match_at (a :: pre ++ fill_in_placeholder ++ post) = None).
  { unfold match_at. destruct (a =? c_eq); [|reflexivity].
    destruct (drop_spaces pre) as [|y1 [|y2 r']] eqn:Hd.
    - rewrite drop_spaces_nil_app by exact Hd. reflexivity.
    - rewrite (drop_spaces_app _ _ _ _ Hd). simpl.
      destruct (y1 =? c_slash); reflexivity.
    - rewrite (drop_spaces_app _ _ _ _ Hd). cbn [app].
      destruct ((y1 =? c_slash) && (y2 =? c_star)) eqn:Ey; [|reflexivity].
      exfalso. destruct (drop_spaces_suffix pre) as [sp [Hp _]].
      rewrite Hd in Hp. rewrite Hp, (has_open_app _ _ _ _ Ey) in H'.
      discriminate. }
  rewrite Hm, (IH H'). reflexivity.
Qed.

(** C8: the placeholder sanitization is idempotent. *)
Theorem sanitize_idempotent (s : pystr) :
  _sanitize_code (_sanitize_code s) = _sanitize_code s.
Proof. exact (sanitize_idem_aux (List.length s) s (le_n _)). Qed.

(** C9 (amended): an occurrence of [= /* fill in later */;] that no earlier
    opening ["/*"] precedes is rewritten to [= '';// TODO: provide value;],
    the text before it is unchanged, and the text after it is sanitized in
    turn; when that text has no ["/*"], it is left unchanged. *)
Theorem sanitize_placeholder_rewrite (pre post : pystr) :
  has_comment_open pre = false ->
  _sanitize_code (pre ++ fill_in_placeholder ++ post) =
    pre ++ placeholder_repl ++ _sanitize_code post /\
  (has_comment_open post = false ->
   _sanitize_code (pre ++ fill_in_placeholder ++ post) =
     pre ++ placeholder_repl ++ post).
Proof.
  intros H. rewrite (sanitize_placeholder_mid _ _ H). split; [reflexivity|].
  intros Hp. rewrite (sanitize_no_open _ Hp). reflexivity.
Qed.

Lemma sanitize_placeholder_rewrite_witness :
  has_comment_open (lit "const a ") = false /\
  has_comment_open (lit " const b = 1;") = false /\
  _sanitize_code (lit "const a " ++ fill_in_placeholder ++ lit " const b = 1;") =
    lit "const a " ++ placeholder_repl ++ lit " const b = 1;".
Proof.
  split; [reflexivity|]. split; [reflexivity|].
  apply (sanitize_placeholder_rewrite (lit "const a ") (lit " const b = 1;"));
    reflexivity.
Defined.

(** C9 (counterexample): a second placeholder after the scenario's one is
    rewritten as well, so the rest of the text is not left unchanged. *)
Lemma sanitize_placeholder_counterexample :
  _sanitize_code (lit "x = /* fill in later */; y = /* z */;") =
    lit "x = '';// TODO: provide value; y = '';// TODO: provide value;" /\
  _sanitize_code (lit "x = /* fill in later */; y = /* z */;") <>
    lit "x = '';// TODO: provide value; y = /* z */;".
Proof. split; vm_compute; [reflexivity | congruence]. Qed.

(** ** Lemmas on the monad *)

Lemma bind_Ok {A B} (m : M A) (f : A -> M B) s a s' :
  m s = Ok a s' -> bind m f s = f a s'.
Proof. unfold bind. intros ->. reflexivity. Qed.

Lemma bind_Raised {A B} (m : M A) (f : A -> M B) s e s' :
  m s = Raised e s' -> bind m f s = Raised e s'.
Proof. unfold bind. intros ->. reflexivity. Qed.

Lemma bind_Hung {A B} (m : M A) (f : A -> M B) s s' :
  m s = Hung s' -> bind m f s = Hung s'.
Proof. unfold bind. intros ->. reflexivity. Qed.

(** ** Lemmas on the reviewer *)

Lemma run_pytest_eq env s :
  _run_pytest env s =
  adapter_outcome (lit "All Python tests passed successfully.") (env_proc env (adapter_index s)) s.
Proof.
  unfold _run_pytest, adapter_outcome, adapter_index, check_output, decode,
    try_catch, bind, emit, get, ret, raise, hang.
  destruct (env_proc env _) as [code out| |];
    [destruct (code =? 0); [|destruct (utf8_decode out)]|..]; reflexivity.
Qed.

Lemma run_playwright_eq env s :
  _run_playwright env s =
  adapter_outcome (lit "All Playwright tests passed successfully.") (env_proc env (adapter_index s)) s.
Proof.
  unfold _run_playwright, adapter_outcome, adapter_index, check_output, decode,
    try_catch, bind, emit, get, ret, raise, hang.
  destruct (env_proc env _) as [code out| |];
    [destruct (code =? 0); [|destruct (utf8_decode out)]|..]; reflexivity.
Qed.

Lemma review_code_eq env suffix s :
  review_code env suffix s =
  let s0 := mkSt (st_cases s) (st_code s) (EReview :: st_trace s) in
  match adapter_outcome (adapter_ok_msg suffix) (env_proc env (adapter_index s)) s0 with
  | Ok (true, rt) s1 =>
      let (sf, s2) := advisory_outcome (env_advisory env (count_ev EAdvisory (st_trace s1))) s1 in
      Ok (true, combine_feedback rt sf) s2
  | Ok (false, rt) s1 => Ok (false, rt) s1
  | Raised e s1 => Raised e s1
  | Hung s1 => Hung s1
  end.
Proof.
  unfold review_code at 1. unfold bind at 1. unfold emit at 1. cbv beta iota zeta.
  unfold adapter_ok_msg.
  destruct (existsb _ _); unfold bind at 1; cbv beta;
    [rewrite run_playwright_eq | rewrite run_pytest_eq];
  change (adapter_index _) with (adapter_index s);
  unfold adapter_outcome;
  (destruct (env_proc env (adapter_index s)) as [code out| |];
   [destruct (code =? 0); [|destruct (utf8_decode out)]|..]);
  unfold bind, try_catch, _static_js_review, get, emit, chat_completion, ret, raise,
    advisory_outcome;
  cbn; try reflexivity;
  destruct (env_advisory env _); reflexivity.
Qed.

(** C6: [passed] is decided by the runner's exit status alone.  Whenever a
    review returns, [passed] is [returncode == 0]; when the runner exits
    with 0 the review returns [passed = true] whatever the advisory step
    does, and an advisory step that raises with [reason] only appends
    ["[Static review failed: " reason "]"] to the feedback. *)
Theorem review_passed_isolated env suffix s :
  (forall passed fb s',
     review_code env suffix s = Ok (passed, fb) s' ->
     exists code out, env_proc env (adapter_index s) = PExit code out /\ passed = (code =? 0)) /\
  (forall out,
     env_proc env (adapter_index s) = PExit 0 out ->
     (exists fb s', review_code env suffix s = Ok (true, fb) s') /\
     (forall reason,
        env_advisory env (count_ev EAdvisory (st_trace s)) = LLMRaise reason ->
        exists s', review_code env suffix s =
          Ok (true, adapter_ok_msg suffix ++ nl ++ nl ++ lit "[Static Review]" ++ nl ++
                    lit "[Static review failed: " ++ reason ++ lit "]") s')).
Proof.
  rewrite review_code_eq. cbv zeta. unfold adapter_outcome. split.
  - intros passed fb s'.
    destruct (env_proc env (adapter_index s)) as [code out| |]; [|discriminate..].
    destruct (code =? 0) eqn:Ec.
    + destruct (advisory_outcome _ _). intros H. injection H as <- _ _.
      exists code, out. split; [reflexivity | symmetry; exact Ec].
    + destruct (utf8_decode out); [|discriminate]. intros H. injection H as <- _ _.
      exists code, out. split; [reflexivity | symmetry; exact Ec].
  - intros out Hp. rewrite Hp. cbn [Z.eqb]. split.
    + destruct (advisory_outcome _ _) as [sf s2]. eexists _, _. reflexivity.
    + intros reason Ha. cbn [st_trace]. change (count_ev EAdvisory (EAdapter :: EReview :: st_trace s))
        with (count_ev EAdvisory (st_trace s)).
      rewrite Ha. eexists. reflexivity.
Qed.

Lemma review_passed_isolated_witness :
  exists s', review_code (env_with (fun _ => PExit 0 []) (fun _ => LLMRaise (lit "quota"))) (lit ".js") st0 =
    Ok (true, adapter_ok_msg (lit ".js") ++ nl ++ nl ++ lit "[Static Review]" ++ nl ++
              lit "[Static review failed: " ++ lit "quota" ++ lit "]") s'.
Proof.
  apply (proj2 (proj2 (review_passed_isolated
    (env_with (fun _ => PExit 0 []) (fun _ => LLMRaise (lit "quota"))) (lit ".js") st0) []
    eq_refl) (lit "quota")).
  reflexivity.
Defined.

(** C5 (amended): a runner that exits non-zero gives [passed = false] with
    its combined output, decoded as UTF-8, as the feedback and without
    raising; if that output is not valid UTF-8 the review raises
    [UnicodeDecodeError]; a runner that cannot be spawned makes the review
    raise the [OSError]. *)
Theorem review_failed_run_encoding env suffix s :
  (forall code out text,
     env_proc env (adapter_index s) = PExit code out -> code <> 0 ->
     utf8_decode out = Some text ->
     exists s', review_code env suffix s = Ok (false, text) s') /\
  (forall code out,
     env_proc env (adapter_index s) = PExit code out -> code <> 0 ->
     utf8_decode out = None ->
     exists s', review_code env suffix s = Raised UnicodeDecodeError s') /\
  (forall reason,
     env_proc env (adapter_index s) = PSpawnFail reason ->
     exists s', review_code env suffix s = Raised (OSError reason) s').
Proof.
  rewrite review_code_eq. cbv zeta. unfold adapter_outcome.
  split; [|split].
  - intros code out text Hp Hc Hd. rewrite Hp, Hd.
    apply Z.eqb_neq in Hc. rewrite Hc. eexists. reflexivity.
  - intros code out Hp Hc Hd. rewrite Hp, Hd.
    apply Z.eqb_neq in Hc. rewrite Hc. eexists. reflexivity.
  - intros reason Hp. rewrite Hp. eexists. reflexivity.
Qed.

Lemma review_failed_run_encoding_witness :
  exists s', review_code (env_with (fun _ => PExit 1 (ascii_bytes "1 failed")) (fun _ => LLMText []))
               (lit ".js") st0 = Ok (false, lit "1 failed") s'.
Proof.
  apply (proj1 (review_failed_run_encoding
    (env_with (fun _ => PExit 1 (ascii_bytes "1 failed")) (fun _ => LLMText []))
    (lit ".js") st0) 1 (ascii_bytes "1 failed")); [reflexivity | lia | reflexivity].
Defined.

(** C5 (counterexample): when [npx] cannot be spawned, the review raises
    instead of returning [passed = false]. *)
Lemma review_spawn_failure_raises :
  review_code (env_with (fun _ => PSpawnFail (lit "[Errno 2] No such file or directory: 'npx'"))
                        (fun _ => LLMText []))
              (lit ".js") st0 =
  Raised (OSError (lit "[Errno 2] No such file or directory: 'npx'"))
         (mkSt None None [EAdapter; EReview]).
Proof. reflexivity. Qed.

(** C7 (amended): no timeout bounds a runner: the review blocks exactly
    when the runner process never exits, and the feedback of a failed run
    is always the decoded output of a runner that exited non-zero, never a
    timeout message of the reviewer's own. *)
Theorem review_no_timeout env suffix s :
  (env_proc env (adapter_index s) = PNeverExits <->
   exists s', review_code env suffix s = Hung s') /\
  (forall fb s',
     review_code env suffix s = Ok (false, fb) s' ->
     exists code out, env_proc env (adapter_index s) = PExit code out /\
                      code <> 0 /\ utf8_decode out = Some fb).
Proof.
  rewrite review_code_eq. cbv zeta. unfold adapter_outcome. split.
  - split.
    + intros ->. eexists. reflexivity.
    + intros [s' H]. destruct (env_proc env (adapter_index s)) as [code out| |];
        [|discriminate|reflexivity].
      destruct (code =? 0); [destruct (advisory_outcome _ _); discriminate|].
      destruct (utf8_decode out); discriminate.
  - intros fb s'. destruct (env_proc env (adapter_index s)) as [code out| |];
      [|discriminate..].
    destruct (code =? 0) eqn:Ec; [destruct (advisory_outcome _ _); discriminate|].
    destruct (utf8_decode out) as [t|] eqn:Ed; [|discriminate].
    intros H. injection H as -> _.
    exists code, out. apply Z.eqb_neq in Ec. auto.
Qed.

(** C7 (counterexample): a runner that never exits is not cut off: the
    review blocks instead of reporting a failed run. *)
Lemma review_hangs_without_timeout :
  review_code (env_with (fun _ => PNeverExits) (fun _ => LLMText [])) (lit ".js") st0 =
  Hung (mkSt None None [EAdapter; EReview]).
Proof. reflexivity. Qed.

(** ** Lemmas on the agents' traces *)

Lemma review_code_counts env suffix s :
  count_in EReview (review_code env suffix s) = S (count_ev EReview (st_trace s)) /\
  count_in ESynthesize (review_code env suffix s) = count_ev ESynthesize (st_trace s) /\
  count_in ESynthLLM (review_code env suffix s) = count_ev ESynthLLM (st_trace s).
Proof.
  rewrite review_code_eq. cbv zeta. unfold adapter_outcome.
  destruct (env_proc env (adapter_index s)) as [code out| |];
    [destruct (code =? 0); [|destruct (utf8_decode out)]|..];
    [unfold advisory_outcome; destruct (env_advisory _ _)|..];
    repeat split.
Qed.

Lemma review_code_hung_inv env suffix s s' :
  review_code env suffix s = Hung s' -> env_proc env (adapter_index s) = PNeverExits.
Proof.
  rewrite review_code_eq. cbv zeta. unfold adapter_outcome.
  destruct (env_proc env (adapter_index s)) as [code out| |]; [|discriminate|reflexivity].
  destruct (code =? 0); [destruct (advisory_outcome _ _); discriminate|].
  destruct (utf8_decode out); discriminate.
Qed.

Ltac unfold_monad :=
  unfold bind, try_catch, emit, print, get, set_cases, set_code, chat_completion,
    ret, raise, hang.

Lemma improve_code_counts env fb s :
  count_in ESynthesize (improve_code env fb s) = S (count_ev ESynthesize (st_trace s)) /\
  count_in EReview (improve_code env fb s) = count_ev EReview (st_trace s) /\
  (forall s', improve_code env fb s <> Hung s').
Proof.
  unfold improve_code, _save_code. unfold_monad. cbv zeta.
  destruct (env_improve_llm env _ _); (split; [|split]); try reflexivity;
    intros s'; discriminate.
Qed.

Lemma tc_generator_counts env s :
  count_in ESynthesize (tc_generator_run env s) = count_ev ESynthesize (st_trace s) /\
  count_in EReview (tc_generator_run env s) = count_ev EReview (st_trace s) /\
  count_in ESynthLLM (tc_generator_run env s) = count_ev ESynthLLM (st_trace s) /\
  (forall s', tc_generator_run env s <> Hung s').
Proof.
  unfold tc_generator_run, parse_xml, generate_test_cases, save_test_cases. unfold_monad.
  destruct (env_xml env) as [x|];
    [destruct (env_extract_llm env _) as [r|c];
     [|destruct (env_json_loads env c) as [[]|]]|];
    (split; [|split; [|split]]); try reflexivity; intros s'; discriminate.
Qed.

Lemma coder_run_counts env s :
  count_in ESynthesize (coder_run env s) = S (count_ev ESynthesize (st_trace s)) /\
  count_in EReview (coder_run env s) = count_ev EReview (st_trace s) /\
  (forall s', coder_run env s <> Hung s').
Proof.
  unfold coder_run, _load_test_cases, _generate_code, _save_code. unfold_monad.
  destruct (st_cases s) as [j|]; cbn [st_cases st_code st_trace];
    [destruct (env_gen_llm env j)|];
    (split; [|split]); try reflexivity; intros s'; discriminate.
Qed.

Lemma print_eq p s :
  print p s = Ok tt (mkSt (st_cases s) (st_code s) (EPrint p :: st_trace s)).
Proof. reflexivity. Qed.

Lemma count_ev_print ev p t : count_ev ev (EPrint p :: t) = count_ev ev t.
Proof. destruct ev; reflexivity. Qed.

Ltac split5 := refine (conj _ (conj _ (conj _ (conj _ _)))).

Lemma review_loop_facts env cycles k : forall s,
  let r := review_loop env cycles k s in
  (count_in EReview r <= count_ev EReview (st_trace s) + List.length cycles)%nat /\
  (count_in ESynthesize r <= count_ev ESynthesize (st_trace s) + List.length cycles)%nat /\
  (forall s', r = Ok LoopExhausted s' ->
     count_ev ESynthesize (st_trace s') = (count_ev ESynthesize (st_trace s) + List.length cycles)%nat /\
     hd_error (st_trace s') = Some (EPrint PMaxCycles)) /\
  (forall s', r = Ok LoopBreak s' -> hd_error (st_trace s') = Some (EPrint PPassed)) /\
  (forall s', r = Hung s' -> exists n, env_proc env n = PNeverExits).
Proof.
  induction cycles as [|c rest IH]; intros s; cbv zeta.
  - cbn [review_loop]. rewrite (bind_Ok _ _ _ _ _ (print_eq _ s)).
    unfold count_in; unfold ret; cbn [res_st st_trace List.length]. rewrite !count_ev_print.
    split5; try lia; intros s' H; try discriminate; injection H as <-;
      [split; [cbn [st_trace]; rewrite count_ev_print; lia | reflexivity] ].
  - cbn [review_loop]. rewrite (bind_Ok _ _ _ _ _ (print_eq _ s)). cbv beta.
    set (s1 := mkSt (st_cases s) (st_code s) (EPrint (PReviewCycle c k) :: st_trace s)).
    assert (C1 : forall ev, count_ev ev (st_trace s1) = count_ev ev (st_trace s))
      by (intros ev; apply count_ev_print).
    pose proof (review_code_counts env reviewer_suffix s1) as [R1 [R2 _]].
    pose proof (review_code_hung_inv env reviewer_suffix s1) as RH.
    destruct (review_code env reviewer_suffix s1) as [[passed fb] s2|e s2|s2] eqn:Er.
    + rewrite (bind_Ok _ _ _ _ _ Er). cbv beta iota.
      unfold count_in in R1, R2; cbn [res_st] in R1, R2. rewrite C1 in R1, R2.
      destruct passed.
      * rewrite (bind_Ok _ _ _ _ _ (print_eq _ s2)).
        unfold count_in; unfold ret; cbn [res_st st_trace List.length]. rewrite !count_ev_print.
        split5; try lia; intros s' H; try discriminate.
        injection H as <-. reflexivity.
      * rewrite (bind_Ok _ _ _ _ _ (print_eq _ s2)). cbv beta.
        rewrite (bind_Ok _ _ _ _ _ (print_eq _ _)). cbv beta.
        set (s4 := mkSt _ _ (EPrint (PFeedback fb) :: _)).
        assert (C4 : forall ev, count_ev ev (st_trace s4) = count_ev ev (st_trace s2))
          by (intros ev; unfold s4; cbn [st_trace]; rewrite !count_ev_print; reflexivity).
        pose proof (improve_code_counts env fb s4) as [I1 [I2 I3]].
        destruct (improve_code env fb s4) as [a s5|e s5|s5] eqn:Ei.
        -- rewrite (bind_Ok _ _ _ _ _ Ei).
           unfold count_in in I1, I2; cbn [res_st] in I1, I2. rewrite C4 in I1, I2.
           destruct (IH s5) as [H1 [H2 [H3 [H4 H5]]]].
           cbn [List.length]. split; [lia|]. split; [lia|].
           split; [|split; [exact H4 | exact H5]].
           intros s' H. destruct (H3 s' H) as [H3a H3b]. split; [lia | exact H3b].
        -- rewrite (bind_Raised _ _ _ _ _ Ei).
           unfold count_in in I1, I2 |- *; cbn [res_st] in I1, I2 |- *.
           rewrite C4 in I1, I2. cbn [List.length].
           split5; try lia; intros s' H; discriminate.
        -- exfalso. exact (I3 s5 eq_refl).
    + rewrite (bind_Raised _ _ _ _ _ Er).
      unfold count_in in R1, R2 |- *; cbn [res_st] in R1, R2 |- *.
      rewrite C1 in R1, R2. cbn [List.length].
      split5; try lia; intros s' H; discriminate.
    + rewrite (bind_Hung _ _ _ _ Er).
      unfold count_in in R1, R2 |- *; cbn [res_st] in R1, R2 |- *.
      rewrite C1 in R1, R2. cbn [List.length].
      split5; try lia; intros s' H; try discriminate.
      exists (adapter_index s1). exact (RH s2 eq_refl).
Qed.

Lemma improve_code_synthllm env fb s :
  count_in ESynthLLM (improve_code env fb s) = S (count_ev ESynthLLM (st_trace s)).
Proof.
  unfold improve_code, _save_code. unfold_monad. cbv zeta.
  destruct (env_improve_llm env _ _); reflexivity.
Qed.

Lemma coder_run_synthllm env s j :
  st_cases s = Some j ->
  count_in ESynthLLM (coder_run env s) = S (count_ev ESynthLLM (st_trace s)).
Proof.
  intros Hc. unfold coder_run, _load_test_cases, _generate_code, _save_code. unfold_monad.
  cbn [st_cases st_code st_trace]. rewrite Hc.
  destruct (env_gen_llm env j); reflexivity.
Qed.

Lemma review_loop_synthllm_mono env cycles k : forall s,
  (count_ev ESynthLLM (st_trace s) <= count_in ESynthLLM (review_loop env cycles k s))%nat.
Proof.
  induction cycles as [|c rest IH]; intros s.
  - reflexivity.
  - cbn [review_loop]. rewrite (bind_Ok _ _ _ _ _ (print_eq _ s)). cbv beta.
    set (s1 := mkSt (st_cases s) (st_code s) (EPrint (PReviewCycle c k) :: st_trace s)).
    assert (C1 : count_ev ESynthLLM (st_trace s1) = count_ev ESynthLLM (st_trace s))
      by apply count_ev_print.
    pose proof (review_code_counts env reviewer_suffix s1) as [_ [_ R3]].
    destruct (review_code env reviewer_suffix s1) as [[passed fb] s2|e s2|s2] eqn:Er;
      unfold count_in in R3; cbn [res_st] in R3; rewrite C1 in R3.
    + rewrite (bind_Ok _ _ _ _ _ Er). cbv beta iota.
      destruct passed.
      * rewrite (bind_Ok _ _ _ _ _ (print_eq _ s2)).
        unfold count_in, ret; cbn [res_st st_trace]. rewrite count_ev_print. lia.
      * rewrite (bind_Ok _ _ _ _ _ (print_eq _ s2)). cbv beta.
        rewrite (bind_Ok _ _ _ _ _ (print_eq _ _)). cbv beta.
        set (s4 := mkSt _ _ (EPrint (PFeedback fb) :: _)).
        assert (C4 : count_ev ESynthLLM (st_trace s4) = count_ev ESynthLLM (st_trace s2))
          by (unfold s4; cbn [st_trace]; rewrite !count_ev_print; reflexivity).
        pose proof (improve_code_synthllm env fb s4) as I1.
        pose proof (improve_code_counts env fb s4) as [_ [_ I3]].
        destruct (improve_code env fb s4) as [a s5|e s5|s5] eqn:Ei;
          unfold count_in in I1; cbn [res_st] in I1.
        -- rewrite (bind_Ok _ _ _ _ _ Ei). specialize (IH s5). lia.
        -- rewrite (bind_Raised _ _ _ _ _ Ei). unfold count_in; cbn [res_st]. lia.
        -- exfalso. exact (I3 s5 eq_refl).
    + rewrite (bind_Raised _ _ _ _ _ Er). unfold count_in; cbn [res_st]. lia.
    + rewrite (bind_Hung _ _ _ _ Er). unfold count_in; cbn [res_st]. lia.
Qed.

(** ** Lemmas on a whole run *)

Lemma main_unfold env cases0 code0 k :
  main env cases0 code0 k =
  (tc_generator_run env ;; print PGeneratingCode ;; coder_run env ;;
   review_loop env (py_range 1 (k + 1)) k) (mkSt cases0 code0 [EPrint PGeneratingCases]).
Proof. reflexivity. Qed.

Lemma py_range_length k : List.length (py_range 1 (k + 1)) = Z.to_nat k.
Proof.
  unfold py_range. rewrite length_map, length_seq. f_equal. lia.
Qed.

Lemma tc_generator_parse_fail env s :
  env_xml env = None -> tc_generator_run env s = Raised ParseError s.
Proof. intros H. unfold tc_generator_run, parse_xml. unfold_monad. rewrite H. reflexivity. Qed.

Lemma tc_generator_backend_fail env s x reason :
  env_xml env = Some x -> env_extract_llm env (build_prompt x) = LLMRaise reason ->
  tc_generator_run env s =
  Raised (BackendError reason) (mkSt (st_cases s) (st_code s) (EExtractLLM :: st_trace s)).
Proof.
  intros Hx Hl. unfold tc_generator_run, parse_xml, generate_test_cases. unfold_monad.
  rewrite Hx, Hl. reflexivity.
Qed.

Lemma tc_generator_not_json env s x c :
  env_xml env = Some x -> env_extract_llm env (build_prompt x) = LLMText c ->
  env_json_loads env c = None ->
  tc_generator_run env s =
  Ok tt (mkSt (st_cases s) (st_code s) (EPrint (PNotJson c) :: EExtractLLM :: st_trace s)).
Proof.
  intros Hx Hl Hj. unfold tc_generator_run, parse_xml, generate_test_cases. unfold_monad.
  rewrite Hx, Hl. cbn [st_cases st_code st_trace]. rewrite Hj. reflexivity.
Qed.

Lemma coder_run_no_cases env s :
  st_cases s = None ->
  coder_run env s = Raised FileNotFoundError (mkSt (st_cases s) (st_code s) (ESynthesize :: st_trace s)).
Proof.
  intros Hc. unfold coder_run, _load_test_cases. unfold_monad.
  cbn [st_cases st_code st_trace]. rewrite Hc. reflexivity.
Qed.

Lemma main_facts env cases0 code0 k :
  let r := main env cases0 code0 k in
  (count_in EReview r <= Z.to_nat k)%nat /\
  (count_in ESynthesize r <= Z.to_nat k + 1)%nat /\
  (forall s', r = Ok LoopExhausted s' ->
     count_ev ESynthesize (st_trace s') = (Z.to_nat k + 1)%nat /\
     hd_error (st_trace s') = Some (EPrint PMaxCycles)) /\
  (forall s', r = Ok LoopBreak s' -> hd_error (st_trace s') = Some (EPrint PPassed)) /\
  (forall s', r = Hung s' -> exists n, env_proc env n = PNeverExits).
Proof.
  cbv zeta. rewrite main_unfold.
  set (s0 := mkSt cases0 code0 [EPrint PGeneratingCases]).
  pose proof (tc_generator_counts env s0) as [T1 [T2 [_ T4]]].
  destruct (tc_generator_run env s0) as [u s1|e s1|s1] eqn:Et;
    unfold count_in in T1, T2; cbn [res_st] in T1, T2.
  - rewrite (bind_Ok _ _ _ _ _ Et). rewrite (bind_Ok _ _ _ _ _ (print_eq _ s1)). cbv beta.
    set (s2 := mkSt (st_cases s1) (st_code s1) (EPrint PGeneratingCode :: st_trace s1)).
    assert (C2 : forall ev, count_ev ev (st_trace s2) = count_ev ev (st_trace s1))
      by (intros ev; apply count_ev_print).
    pose proof (coder_run_counts env s2) as [K1 [K2 K3]].
    destruct (coder_run env s2) as [a s3|e s3|s3] eqn:Ec;
      unfold count_in in K1, K2; cbn [res_st] in K1, K2; rewrite C2 in K1, K2.
    + rewrite (bind_Ok _ _ _ _ _ Ec).
      destruct (review_loop_facts env (py_range 1 (k + 1)) k s3) as [H1 [H2 [H3 [H4 H5]]]].
      rewrite py_range_length in H1, H2, H3.
      assert (E1 : count_ev EReview (st_trace s3) = 0%nat) by (rewrite K2, T2; reflexivity).
      assert (E2 : count_ev ESynthesize (st_trace s3) = 1%nat) by (rewrite K1, T1; reflexivity).
      rewrite E1 in H1. rewrite E2 in H2, H3.
      split; [lia|]. split; [lia|]. split; [|split; [exact H4|exact H5]].
      intros s' H. destruct (H3 s' H) as [Ha Hb]. split; [lia|exact Hb].
    + rewrite (bind_Raised _ _ _ _ _ Ec). unfold count_in; cbn [res_st].
      rewrite K1, K2, T1, T2. cbn.
      split5; try lia; intros s' H; discriminate.
    + exfalso. exact (K3 s3 eq_refl).
  - rewrite (bind_Raised _ _ _ _ _ Et). unfold count_in; cbn [res_st].
    rewrite T1, T2. cbn.
    split5; try lia; intros s' H; discriminate.
  - exfalso. exact (T4 s1 eq_refl).
Qed.

(** ** Claims on a whole run *)

(** C1 (amended): for every run with review budget [k] (a negative budget
    behaves as 0), the number of synthesis invocations ([coder.run] plus the
    [improve_code] revisions) is at most [k + 1], and a run that ends
    Exhausted has made exactly [k + 1] of them: after the review of the last
    cycle fails, [improve_code] is still called once before the loop ends. *)
Theorem run_synthesis_bound env cases0 code0 k :
  (count_in ESynthesize (main env cases0 code0 k) <= Z.to_nat k + 1)%nat /\
  (forall s', main env cases0 code0 k = Ok LoopExhausted s' ->
     count_ev ESynthesize (st_trace s') = (Z.to_nat k + 1)%nat).
Proof.
  destruct (main_facts env cases0 code0 k) as [_ [H2 [H3 _]]].
  split; [exact H2|]. intros s' H. exact (proj1 (H3 s' H)).
Qed.

(** C1, counterexample: with [k = 1] and a test runner that always fails,
    the run ends Exhausted after two synthesis invocations. *)
Lemma run_exhausted_synthesizes_twice :
  outcome_of (main (env_with (fun _ => PExit 1 (ascii_bytes "1 failed")) (fun _ => LLMText []))
                   None None 1) = Exhausted /\
  count_in ESynthesize
    (main (env_with (fun _ => PExit 1 (ascii_bytes "1 failed")) (fun _ => LLMText []))
          None None 1) = 2%nat.
Proof. split; vm_compute; reflexivity. Qed.

(** C2 (amended): every run performs at most [k] reviews (none for
    [k <= 0]); it ends Passed, Exhausted or Fatal unless a test runner
    process never exits, since [check_output] has no timeout: a Blocked run
    waits on such a process. *)
Theorem run_review_bound env cases0 code0 k :
  (count_in EReview (main env cases0 code0 k) <= Z.to_nat k)%nat /\
  (outcome_of (main env cases0 code0 k) = Blocked -> exists n, env_proc env n = PNeverExits).
Proof.
  destruct (main_facts env cases0 code0 k) as [H1 [_ [_ [_ H5]]]].
  split; [exact H1|].
  destruct (main env cases0 code0 k) as [[|] s'|e s'|s']; try discriminate.
  intros _. exact (H5 s' eq_refl).
Qed.

(** C2, counterexample: with a test runner that never exits, the run with
    [k = 1] never reaches Passed, Exhausted or Fatal. *)
Lemma run_blocks_on_hung_runner :
  outcome_of (main (env_with (fun _ => PNeverExits) (fun _ => LLMText [])) None None 1) = Blocked.
Proof. vm_compute. reflexivity. Qed.

(** C3 (amended): a run that ends exits with status 0 when it is Passed
    and also when it is Exhausted, and with status 1 when it is Fatal (an
    uncaught exception); Passed and Exhausted are told apart only by the
    last printed line, the success line or the maximum-cycles line. A
    Blocked run has no exit status. *)
Theorem run_exit_status env cases0 code0 k :
  (outcome_of (main env cases0 code0 k) = Passed ->
     exit_status (outcome_of (main env cases0 code0 k)) = Some 0 /\
     hd_error (st_trace (res_st (main env cases0 code0 k))) = Some (EPrint PPassed)) /\
  (outcome_of (main env cases0 code0 k) = Exhausted ->
     exit_status (outcome_of (main env cases0 code0 k)) = Some 0 /\
     hd_error (st_trace (res_st (main env cases0 code0 k))) = Some (EPrint PMaxCycles)) /\
  (forall e, outcome_of (main env cases0 code0 k) = Fatal e ->
     exit_status (outcome_of (main env cases0 code0 k)) = Some 1) /\
  (outcome_of (main env cases0 code0 k) = Blocked ->
     exit_status (outcome_of (main env cases0 code0 k)) = None).
Proof.
  destruct (main_facts env cases0 code0 k) as [_ [_ [H3 [H4 _]]]].
  destruct (main env cases0 code0 k) as [[|] s'|e s'|s'];
    cbn [outcome_of exit_status res_st];
    refine (conj _ (conj _ (conj _ _))); intros; try discriminate; try reflexivity.
  - split; [reflexivity | exact (H4 s' eq_refl)].
  - split; [reflexivity | exact (proj2 (H3 s' eq_refl))].
Qed.

(** C3, counterexample: a Passed run and an Exhausted run exit with the
    same status 0. *)
Lemma run_passed_and_exhausted_same_status :
  outcome_of (main (env_with (fun _ => PExit 0 []) (fun _ => LLMText [])) None None 1) = Passed /\
  outcome_of (main (env_with (fun _ => PExit 1 (ascii_bytes "1 failed")) (fun _ => LLMText []))
                   None None 1) = Exhausted /\
  exit_status Passed = exit_status Exhausted.
Proof. split; [|split]; vm_compute; reflexivity. Qed.

Lemma tc_generator_no_save env s x c :
  env_xml env = Some x -> env_extract_llm env (build_prompt x) = LLMText c ->
  env_json_loads env c = None \/ env_json_loads env c = Some JNull ->
  exists s1, tc_generator_run env s = Ok tt s1 /\
    st_cases s1 = st_cases s /\ st_code s1 = st_code s /\
    count_ev ESynthesize (st_trace s1) = count_ev ESynthesize (st_trace s) /\
    count_ev ESynthLLM (st_trace s1) = count_ev ESynthLLM (st_trace s) /\
    count_ev EReview (st_trace s1) = count_ev EReview (st_trace s).
Proof.
  intros Hx Hl Hj. unfold tc_generator_run, parse_xml, generate_test_cases. unfold_monad.
  rewrite Hx, Hl. cbn [st_cases st_code st_trace].
  destruct Hj as [Hj|Hj]; rewrite Hj; (eexists; split; [reflexivity|]);
    cbn [st_cases st_code st_trace]; split5; reflexivity.
Qed.

Lemma coder_run_gen_raise env s j r :
  st_cases s = Some j -> env_gen_llm env j = LLMRaise r ->
  coder_run env s =
  Raised (BackendError r) (mkSt (st_cases s) (st_code s) (ESynthLLM :: ESynthesize :: st_trace s)).
Proof.
  intros Hc Hg. unfold coder_run, _load_test_cases, _generate_code. unfold_monad.
  cbn [st_cases st_code st_trace]. rewrite Hc, Hg. reflexivity.
Qed.

Lemma coder_run_gen_text env s j t :
  st_cases s = Some j -> env_gen_llm env j = LLMText t ->
  coder_run env s =
  Ok code_path (mkSt (st_cases s) (Some (_sanitize_code t))
                  (EPrint PCodeWritten :: ESynthLLM :: ESynthesize :: st_trace s)).
Proof.
  intros Hc Hg. unfold coder_run, _load_test_cases, _generate_code, _save_code. unfold_monad.
  cbn [st_cases st_code st_trace]. rewrite Hc, Hg. reflexivity.
Qed.

Lemma review_loop_reviews_from env cycles k : forall s,
  (count_ev EReview (st_trace s) + Nat.min 1 (List.length cycles) <=
   count_in EReview (review_loop env cycles k s))%nat.
Proof.
  induction cycles as [|c rest IH]; intros s.
  - cbn [review_loop List.length]. unfold count_in, bind, print, emit, ret; cbn [res_st st_trace].
    rewrite count_ev_print. lia.
  - cbn [review_loop List.length]. rewrite (bind_Ok _ _ _ _ _ (print_eq _ s)). cbv beta.
    set (s1 := mkSt (st_cases s) (st_code s) (EPrint (PReviewCycle c k) :: st_trace s)).
    assert (C1 : count_ev EReview (st_trace s1) = count_ev EReview (st_trace s))
      by apply count_ev_print.
    pose proof (review_code_counts env reviewer_suffix s1) as [R1 _].
    destruct (review_code env reviewer_suffix s1) as [[passed fb] s2|e s2|s2] eqn:Er;
      unfold count_in in R1; cbn [res_st] in R1; rewrite C1 in R1.
    + rewrite (bind_Ok _ _ _ _ _ Er). cbv beta iota.
      destruct passed.
      * rewrite (bind_Ok _ _ _ _ _ (print_eq _ s2)).
        unfold count_in, ret; cbn [res_st st_trace]. rewrite count_ev_print. lia.
      * rewrite (bind_Ok _ _ _ _ _ (print_eq _ s2)). cbv beta.
        rewrite (bind_Ok _ _ _ _ _ (print_eq _ _)). cbv beta.
        set (s4 := mkSt _ _ (EPrint (PFeedback fb) :: _)).
        assert (C4 : count_ev EReview (st_trace s4) = count_ev EReview (st_trace s2))
          by (unfold s4; cbn [st_trace]; rewrite !count_ev_print; reflexivity).
        pose proof (improve_code_counts env fb s4) as [_ [I2 I3]].
        destruct (improve_code env fb s4) as [a s5|e s5|s5] eqn:Ei;
          unfold count_in in I2; cbn [res_st] in I2.
        -- rewrite (bind_Ok _ _ _ _ _ Ei). specialize (IH s5). lia.
        -- rewrite (bind_Raised _ _ _ _ _ Ei). unfold count_in; cbn [res_st]. lia.
        -- exfalso. exact (I3 s5 eq_refl).
    + rewrite (bind_Raised _ _ _ _ _ Er). unfold count_in; cbn [res_st]. lia.
    + rewrite (bind_Hung _ _ _ _ Er). unfold count_in; cbn [res_st]. lia.
Qed.

(** C4 (amended): when the source document cannot be parsed, or the
    extraction completion raises, the run is Fatal with no synthesis and no
    review. When the extraction reply is not JSON (printed) or is JSON
    [null], [generate_test_cases] returns [None], nothing is saved, and the
    run goes on: with no case file left from an earlier run, [coder.run]
    raises [FileNotFoundError] before any synthesis completion, with no
    review; with a case file holding cases [j] left from an earlier run,
    the synthesis completion is requested on [j]. If it raises, the run is
    Fatal after that one completion, with no review; if it returns [t], the
    case file still holds [j], [_sanitize_code t] is saved, the rest of the
    run is the review loop on that state, and it reviews at least once when
    [maxCycles >= 1]. *)
Theorem extraction_failure_paths env cases0 code0 k :
  (env_xml env = None ->
     exists s', main env cases0 code0 k = Raised ParseError s' /\
       count_ev ESynthesize (st_trace s') = 0%nat /\ count_ev EReview (st_trace s') = 0%nat) /\
  (forall x reason, env_xml env = Some x -> env_extract_llm env (build_prompt x) = LLMRaise reason ->
     exists s', main env cases0 code0 k = Raised (BackendError reason) s' /\
       count_ev ESynthesize (st_trace s') = 0%nat /\ count_ev EReview (st_trace s') = 0%nat) /\
  (forall x c, env_xml env = Some x -> env_extract_llm env (build_prompt x) = LLMText c ->
     env_json_loads env c = None \/ env_json_loads env c = Some JNull ->
     (cases0 = None ->
        exists s', main env cases0 code0 k = Raised FileNotFoundError s' /\
          count_ev ESynthLLM (st_trace s') = 0%nat /\ count_ev EReview (st_trace s') = 0%nat) /\
     (forall j, cases0 = Some j ->
        (forall r, env_gen_llm env j = LLMRaise r ->
           exists s', main env cases0 code0 k = Raised (BackendError r) s' /\
             count_ev ESynthLLM (st_trace s') = 1%nat /\ count_ev EReview (st_trace s') = 0%nat) /\
        (forall t, env_gen_llm env j = LLMText t ->
           exists s3, st_cases s3 = Some j /\ st_code s3 = Some (_sanitize_code t) /\
             main env cases0 code0 k = review_loop env (py_range 1 (k + 1)) k s3 /\
             (0 < k -> (1 <= count_in EReview (main env cases0 code0 k))%nat)))).
Proof.
  rewrite main_unfold.
  set (s0 := mkSt cases0 code0 [EPrint PGeneratingCases]).
  split; [|split].
  - intros Hx. rewrite (bind_Raised _ _ _ _ _ (tc_generator_parse_fail env s0 Hx)).
    eexists; split; [reflexivity | split; reflexivity].
  - intros x reason Hx Hl.
    rewrite (bind_Raised _ _ _ _ _ (tc_generator_backend_fail env s0 x reason Hx Hl)).
    eexists; split; [reflexivity | split; reflexivity].
  - intros x c Hx Hl Hj.
    destruct (tc_generator_no_save env s0 x c Hx Hl Hj) as [s1 [Et [Ec1 [_ [_ [N2 N3]]]]]].
    rewrite (bind_Ok _ _ _ _ _ Et).
    rewrite (bind_Ok _ _ _ _ _ (print_eq _ _)). cbv beta.
    set (s2 := mkSt _ _ (EPrint PGeneratingCode :: _)).
    assert (M2 : count_ev ESynthLLM (st_trace s2) = 0%nat /\ count_ev EReview (st_trace s2) = 0%nat)
      by (unfold s2; cbn [st_trace]; rewrite !count_ev_print, N2, N3; split; reflexivity).
    destruct M2 as [M2a M2b].
    split.
    + intros Hc. assert (Hc2 : st_cases s2 = None) by (unfold s2; cbn [st_cases]; rewrite Ec1; exact Hc).
      rewrite (bind_Raised _ _ _ _ _ (coder_run_no_cases env s2 Hc2)).
      eexists; split; [reflexivity|]. cbn [st_trace].
      change (count_ev ?e (ESynthesize :: ?t)) with (count_ev e t). split; assumption.
    + intros j Hc. assert (Hc2 : st_cases s2 = Some j) by (unfold s2; cbn [st_cases]; rewrite Ec1; exact Hc).
      split.
      * intros r Hg. rewrite (bind_Raised _ _ _ _ _ (coder_run_gen_raise env s2 j r Hc2 Hg)).
        eexists; split; [reflexivity|]. cbn [st_trace].
        change (count_ev ESynthLLM (ESynthLLM :: ESynthesize :: ?t)) with (S (count_ev ESynthLLM t)).
        change (count_ev EReview (ESynthLLM :: ESynthesize :: ?t)) with (count_ev EReview t).
        rewrite M2a, M2b. split; reflexivity.
      * intros t Hg. rewrite (bind_Ok _ _ _ _ _ (coder_run_gen_text env s2 j t Hc2 Hg)).
        exists (mkSt (st_cases s2) (Some (_sanitize_code t))
                  (EPrint PCodeWritten :: ESynthLLM :: ESynthesize :: st_trace s2)).
        split; [exact Hc2|]. split; [reflexivity|]. split; [reflexivity|].
        intros Hk. pose proof (review_loop_reviews_from env (py_range 1 (k + 1)) k
          (mkSt (st_cases s2) (Some (_sanitize_code t))
             (EPrint PCodeWritten :: ESynthLLM :: ESynthesize :: st_trace s2))) as R.
        rewrite py_range_length in R. lia.
Qed.

(** C4, counterexample: the extraction reply is not JSON, a case file is
    left from an earlier run, and the run goes on to synthesis and review,
    and ends Passed. *)
Lemma extraction_not_json_continues :
  outcome_of (main env_not_json (Some (JDict [])) None 1) = Passed /\
  count_in ESynthLLM (main env_not_json (Some (JDict [])) None 1) = 1%nat /\
  count_in EReview (main env_not_json (Some (JDict [])) None 1) = 1%nat.
Proof. split; [|split]; vm_compute; reflexivity. Qed.

(** ** Claim on the revision without a previous file *)

(** C10: when no code file exists, [improve_code] reads no file: it builds
    its prompt with the empty string as the previous code, and when the
    completion returns a text it does not raise, and writes the sanitized
    text to the code path, which it returns. *)
Theorem improve_code_without_prior_file env fb s text :
  st_code s = None ->
  env_improve_llm env (count_ev ESynthLLM (st_trace s)) (improve_prompt fb []) = LLMText text ->
  exists s', improve_code env fb s = Ok code_path s' /\ st_code s' = Some (_sanitize_code text).
Proof.
  intros Hc Hl. unfold improve_code, _save_code. unfold_monad. cbv zeta.
  cbn [st_cases st_code st_trace]. rewrite Hc.
  change (count_ev ESynthLLM (ESynthesize :: st_trace s)) with (count_ev ESynthLLM (st_trace s)).
  rewrite Hl. eexists; split; reflexivity.
Qed.

Lemma improve_code_without_prior_file_witness :
  exists s', improve_code (env_with (fun _ => PExit 0 []) (fun _ => LLMText [])) (lit "1 failed") st0
             = Ok code_path s' /\ st_code s' = Some (_sanitize_code (lit "test();")).
Proof.
  apply (improve_code_without_prior_file
           (env_with (fun _ => PExit 0 []) (fun _ => LLMText [])) (lit "1 failed") st0
           (lit "test();")); reflexivity.
Defined.

(** ** Further properties of the reviewer *)

Lemma py_strip_hd (l : pystr) c : hd_error (py_strip l) = Some c -> is_space c = false.
Proof.
  unfold py_strip. set (d := drop_spaces l).
  destruct (drop_spaces_suffix (rev d)) as [p [Hp _]].
  set (x := drop_spaces (rev d)) in *.
  assert (Hd : d = rev x ++ rev p).
  { rewrite <- rev_app_distr, <- Hp, rev_involutive. reflexivity. }
  intros H. apply (drop_spaces_hd l). fold d. rewrite Hd.
  destruct (rev x) as [|a r]; [discriminate | exact H].
Qed.

Lemma py_strip_last (l : pystr) c : hd_error (rev (py_strip l)) = Some c -> is_space c = false.
Proof.
  unfold py_strip. rewrite rev_involutive. apply drop_spaces_hd.
Qed.

(** X1: a review whose runner exits non-zero makes no static review call
    and writes no file: it returns [(False, output.decode())] after one
    runner process. *)
Theorem review_failed_skips_static_review env suffix s code out text :
  env_proc env (adapter_index s) = PExit code out -> code <> 0 ->
  utf8_decode out = Some text ->
  review_code env suffix s =
  Ok (false, text) (mkSt (st_cases s) (st_code s) (EAdapter :: EReview :: st_trace s)).
Proof.
  intros Hp Hc Hd. rewrite review_code_eq. cbv zeta. unfold adapter_outcome.
  rewrite Hp. apply Z.eqb_neq in Hc. rewrite Hc, Hd. reflexivity.
Qed.

Lemma review_failed_skips_static_review_witness :
  review_code (env_with (fun _ => PExit 1 (ascii_bytes "1 failed")) (fun _ => LLMText [])) (lit ".js") st0 =
  Ok (false, lit "1 failed") (mkSt None None [EAdapter; EReview]).
Proof.
  apply (review_failed_skips_static_review _ _ st0 1 (ascii_bytes "1 failed")); [reflexivity | lia | reflexivity].
Defined.

(** X2: when the runner exits with 0 and the static review answers [c], the
    feedback is the runner's success message (Playwright for a [.js] or
    [.ts] test file, pytest otherwise), followed by
    ["\n\n[Static Review]\n"] and [c.strip()] only when [c.strip()] is not
    empty. *)
Theorem review_passed_feedback env suffix s out c :
  env_proc env (adapter_index s) = PExit 0 out ->
  env_advisory env (count_ev EAdvisory (st_trace s)) = LLMText c ->
  exists s', review_code env suffix s =
    Ok (true, (if existsb (pystr_eqb suffix) [lit ".js"; lit ".ts"]
               then lit "All Playwright tests passed successfully."
               else lit "All Python tests passed successfully.") ++
              match py_strip c with
              | [] => []
              | sf => nl ++ nl ++ lit "[Static Review]" ++ nl ++ sf
              end) s'.
Proof.
  intros Hp Ha. rewrite review_code_eq. cbv zeta. unfold adapter_outcome.
  rewrite Hp. cbn [Z.eqb]. unfold advisory_outcome.
  change (count_ev EAdvisory (st_trace _)) with (count_ev EAdvisory (st_trace s)).
  rewrite Ha. eexists. unfold combine_feedback, adapter_ok_msg.
  destruct (py_strip c); [rewrite app_nil_r|]; reflexivity.
Qed.

Lemma review_passed_feedback_witness :
  exists s', review_code (env_with (fun _ => PExit 0 []) (fun _ => LLMText (lit "  "))) (lit ".ts") st0 =
             Ok (true, lit "All Playwright tests passed successfully.") s'.
Proof.
  exact (review_passed_feedback (env_with (fun _ => PExit 0 []) (fun _ => LLMText (lit "  ")))
           (lit ".ts") st0 [] (lit "  ") eq_refl eq_refl).
Defined.

(** X3: the static review's text never starts or ends with whitespace: it
    is the reply's [.strip()]. *)
Theorem static_review_stripped env s t s' :
  _static_js_review env s = Ok t s' ->
  (forall c, hd_error t = Some c -> is_space c = false) /\
  (forall c, hd_error (rev t) = Some c -> is_space c = false).
Proof.
  unfold _static_js_review. unfold_monad.
  destruct (env_advisory env _) as [r|c]; [discriminate|].
  intros H. injection H as <- _.
  split; intros x; [apply py_strip_hd | apply py_strip_last].
Qed.

Lemma static_review_stripped_witness :
  _static_js_review (env_with (fun _ => PExit 0 []) (fun _ => LLMText (lit " ok "))) st0 =
    Ok (lit "ok") (mkSt None None [EAdvisory]) /\
  hd_error (lit "ok") = Some 111 /\ is_space 111 = false.
Proof.
  split; [reflexivity|]. split; [reflexivity|].
  apply (proj1 (static_review_stripped (env_with (fun _ => PExit 0 []) (fun _ => LLMText (lit " ok ")))
                  st0 (lit "ok") (mkSt None None [EAdvisory]) eq_refl) 111 eq_refl).
Defined.

(** ** Fixed points of the sanitizer *)

Lemma match_at_repl (t : pystr) : match_at (placeholder_repl ++ t) = None.
Proof. reflexivity. Qed.

Lemma sanitize_fix_no_match (a : pystr) : forall l b,
  _sanitize_code l = l -> l = a ++ b -> match_at b = None.
Proof.
  induction a as [|x a IH]; intros l b Hfix ->.
  - destruct b as [|c r]; [reflexivity|].
    destruct (match_at (c :: r)) as [rest|] eqn:E; [|reflexivity].
    cbn [app] in Hfix. rewrite sanitize_cons, E in Hfix. rewrite <- Hfix, match_at_repl in E. discriminate.
  - cbn [app] in Hfix. rewrite sanitize_cons in Hfix.
    destruct (match_at (x :: a ++ b)) as [rest|] eqn:E.
    + rewrite <- Hfix, match_at_repl in E. discriminate.
    + injection Hfix as Hfix. exact (IH _ b Hfix eq_refl).
Qed.

Lemma no_match_sanitize_fix (l : pystr) :
  (forall a b, l = a ++ b -> match_at b = None) -> _sanitize_code l = l.
Proof.
  induction l as [|c r IH]; intros H; [reflexivity|].
  rewrite sanitize_cons, (H [] (c :: r) eq_refl). f_equal.
  apply IH. intros a b ->. exact (H (c :: a) b eq_refl).
Qed.

(** X4: [_sanitize_code] leaves a text unchanged exactly when the pattern
    [=\s*/\*.*?\*/;] matches at no position of it. *)
Theorem sanitize_fixed_iff_no_match (l : pystr) :
  _sanitize_code l = l <-> (forall a b, l = a ++ b -> match_at b = None).
Proof.
  split.
  - intros Hfix a b Hl. exact (sanitize_fix_no_match a l b Hfix Hl).
  - apply no_match_sanitize_fix.
Qed.

(** X5: the pattern matches at no position of a sanitized text. *)
Theorem sanitize_output_no_match (s a b : pystr) :
  _sanitize_code s = a ++ b -> match_at b = None.
Proof.
  intros H. apply (sanitize_fix_no_match a (_sanitize_code s) b); [|exact H].
  exact (sanitize_idem_aux (List.length s) s (le_n _)).
Qed.

Lemma sanitize_output_no_match_witness :
  _sanitize_code (lit "x = /* a */;") = lit "x " ++ placeholder_repl /\
  match_at placeholder_repl = None.
Proof.
  split; [vm_compute; reflexivity|].
  apply (sanitize_output_no_match (lit "x = /* a */;") (lit "x ")). vm_compute. reflexivity.
Defined.

(** ** The Playwright context *)

Lemma pystr_eqb_true (a b : pystr) : pystr_eqb a b = true <-> a = b.
Proof.
  unfold pystr_eqb. destruct (list_eq_dec Z.eq_dec a b); split; congruence.
Qed.

Lemma py_in_iff (x : pystr) l : py_in x l = true <-> In x l.
Proof.
  unfold py_in. rewrite existsb_exists. split.
  - intros [y [Hy Heq]]. apply pystr_eqb_true in Heq. subst. exact Hy.
  - intros H. exists x. split; [exact H | apply pystr_eqb_true; reflexivity].
Qed.

Lemma collect_parts_eq (files : list ctx_file) :
  collect_parts files = map ctx_entry (filter ctx_included files).
Proof.
  induction files as [|f fs IH]; [reflexivity|].
  cbn [collect_parts filter]. unfold ctx_included.
  destruct (f_is_file f); cbn [negb andb]; [|exact IH].
  destruct (_ || _); cbn [negb andb]; [|exact IH].
  destruct (f_size f <? 30000); cbn [negb]; [|exact IH].
  cbn [map]. rewrite IH. reflexivity.
Qed.

Lemma build_prompt_parts_eq (files : list ctx_file) :
  build_prompt_parts files = collect_parts files.
Proof.
  induction files as [|f fs IH]; [reflexivity|].
  cbn [build_prompt_parts collect_parts]. rewrite IH. reflexivity.
Qed.

(** X6: the context entries are, in the order [rglob] meets the files and
    once per file, the entries of exactly the regular files whose first
    path part below the context directory is [utils], [globals] or
    [locators], or whose name is [playwright.config.js], and whose size is
    below 30000 bytes; each entry is ["FILE: "], the file's name, a
    backslash and [n] (not a newline), and its text, which is empty when
    reading it raised. *)
Theorem collect_context_entries (files : list ctx_file) :
  collect_parts files =
    map (fun f => lit "FILE: " ++ f_name f ++ lit "\n" ++
                  match f_read f with Some c => c | None => [] end)
        (filter (fun f => f_is_file f &&
                   ((existsb (pystr_eqb (hd [] (f_rel_parts f))) [lit "utils"; lit "globals"; lit "locators"] ||
                     pystr_eqb (f_name f) (lit "playwright.config.js")) &&
                    (f_size f <? 30000))) files) /\
  (forall part, In part (collect_parts files) <->
   exists f, In f files /\ f_is_file f = true /\
    (In (hd [] (f_rel_parts f)) [lit "utils"; lit "globals"; lit "locators"] \/
     f_name f = lit "playwright.config.js") /\
    f_size f < 30000 /\
    part = lit "FILE: " ++ f_name f ++ lit "\n" ++
           match f_read f with Some c => c | None => [] end).
Proof.
  split.
  { rewrite collect_parts_eq. f_equal. apply filter_ext. intros f.
    unfold ctx_included, py_in, always_include_files. cbn [existsb]. rewrite orb_false_r.
    reflexivity. }
  intros part.
  rewrite collect_parts_eq, in_map_iff. split.
  - intros [f [<- Hf]]. apply filter_In in Hf as [Hin Hinc].
    unfold ctx_included in Hinc. apply andb_true_iff in Hinc as [Hfile Hinc].
    apply andb_true_iff in Hinc as [Hname Hsize]. apply Z.ltb_lt in Hsize.
    exists f. split; [exact Hin|]. split; [exact Hfile|]. split; [|split; [exact Hsize | reflexivity]].
    apply orb_true_iff in Hname as [H|H]; [left; apply py_in_iff, H|right].
    apply py_in_iff in H. destruct H as [H|[]]. symmetry. exact H.
  - intros [f [Hin [Hfile [Hname [Hsize ->]]]]]. exists f. split; [reflexivity|].
    apply filter_In. split; [exact Hin|]. unfold ctx_included.
    rewrite Hfile, (proj2 (Z.ltb_lt _ _) Hsize). cbn [andb].
    rewrite andb_true_r. apply orb_true_iff.
    destruct Hname as [H|H]; [left; apply py_in_iff, H | right; apply py_in_iff; left; symmetry; exact H].
Qed.

(** X8: the Coder's synthesis prompt and the Reviewer's static review prompt
    end with the same context listing, given the same candidate
    directories. *)
Theorem prompts_share_context json_blob generated_code cands :
  exists p1 p2,
    _build_prompt json_blob cands =
      p1 ++ lit "CONTEXT_PLAYWRIGHT_FILES:" ++ nl ++ _collect_context_playwright cands /\
    static_review_prompt generated_code cands =
      p2 ++ lit "CONTEXT_PLAYWRIGHT_FILES:" ++ nl ++ _collect_context_playwright cands.
Proof.
  unfold _build_prompt, static_review_prompt, _collect_context_playwright.
  destruct (first_existing cands) as [files|]; [rewrite build_prompt_parts_eq|];
  (eexists; eexists; split; [rewrite !app_assoc; reflexivity | rewrite !app_assoc; reflexivity]).
Qed.

(** ** The files a run writes *)

Definition code_ok (s : St) : Prop := exists c, st_code s = Some c /\ _sanitize_code c = c.

Lemma sanitize_fixed (t : pystr) : _sanitize_code (_sanitize_code t) = _sanitize_code t.
Proof. exact (sanitize_idem_aux (List.length t) t (le_n _)). Qed.

Lemma review_code_files env suffix s :
  st_code (res_st (review_code env suffix s)) = st_code s /\
  st_cases (res_st (review_code env suffix s)) = st_cases s.
Proof.
  rewrite review_code_eq. cbv zeta. unfold adapter_outcome.
  destruct (env_proc env (adapter_index s)) as [code out| |];
    [destruct (code =? 0); [|destruct (utf8_decode out)]|..];
    [unfold advisory_outcome; destruct (env_advisory _ _)|..];
    split; reflexivity.
Qed.

Lemma improve_code_files env fb s :
  (st_code (res_st (improve_code env fb s)) = st_code s \/ code_ok (res_st (improve_code env fb s))) /\
  st_cases (res_st (improve_code env fb s)) = st_cases s /\
  (forall a s', improve_code env fb s = Ok a s' -> code_ok s').
Proof.
  unfold improve_code, _save_code. unfold_monad. cbv zeta.
  destruct (env_improve_llm env _ _) as [r|t].
  - split; [left; reflexivity|]. split; [reflexivity|]. intros a s' H; discriminate.
  - assert (Hok : code_ok (mkSt (st_cases s) (Some (_sanitize_code t))
                     (EPrint PCodeWritten :: ESynthLLM :: ESynthesize :: st_trace s)))
      by (eexists; split; [reflexivity | apply sanitize_fixed]).
    split; [right; exact Hok|]. split; [reflexivity|].
    intros a s' H. injection H as _ <-. exact Hok.
Qed.

Lemma coder_run_files env s :
  (st_code (res_st (coder_run env s)) = st_code s \/ code_ok (res_st (coder_run env s))) /\
  st_cases (res_st (coder_run env s)) = st_cases s /\
  (forall a s', coder_run env s = Ok a s' -> code_ok s').
Proof.
  unfold coder_run, _load_test_cases, _generate_code, _save_code. unfold_monad.
  cbn [st_cases st_code st_trace].
  destruct (st_cases s) as [j|]; cbn [st_cases st_code st_trace];
    [destruct (env_gen_llm env j) as [r|t]|].
  - split; [left; reflexivity|]. split; [reflexivity|]. intros a s' H; discriminate.
  - assert (Hok : code_ok (mkSt (Some j) (Some (_sanitize_code t))
                     (EPrint PCodeWritten :: ESynthLLM :: ESynthesize :: st_trace s)))
      by (eexists; split; [reflexivity | apply sanitize_fixed]).
    split; [right; exact Hok|]. split; [reflexivity|].
    intros a s' H. injection H as _ <-. exact Hok.
  - split; [left; reflexivity|]. split; [reflexivity|]. intros a s' H; discriminate.
Qed.

Lemma tc_generator_files env s :
  st_code (res_st (tc_generator_run env s)) = st_code s /\
  (st_cases (res_st (tc_generator_run env s)) = st_cases s \/
   exists x c j, env_xml env = Some x /\ env_extract_llm env (build_prompt x) = LLMText c /\
     env_json_loads env c = Some j /\ st_cases (res_st (tc_generator_run env s)) = Some j).
Proof.
  unfold tc_generator_run, parse_xml, generate_test_cases, save_test_cases. unfold_monad.
  destruct (env_xml env) as [x|] eqn:Ex; [|split; [reflexivity | left; reflexivity]].
  destruct (env_extract_llm env (build_prompt x)) as [r|c] eqn:El;
    [split; [reflexivity | left; reflexivity]|].
  cbn [st_cases st_code st_trace].
  destruct (env_json_loads env c) as [j|] eqn:Ej; [|split; [reflexivity | left; reflexivity]].
  destruct j; cbn [st_cases st_code st_trace res_st]; (split; [reflexivity|]);
    [left; reflexivity|..]; right; eexists x, c, _; eauto.
Qed.

Lemma code_ok_eq (a b : St) : st_code a = st_code b -> code_ok b -> code_ok a.
Proof. intros E [c [Hc Hf]]. exists c. rewrite E. auto. Qed.

Lemma review_loop_files env cycles k : forall s,
  (st_code (res_st (review_loop env cycles k s)) = st_code s \/
   code_ok (res_st (review_loop env cycles k s))) /\
  (code_ok s -> code_ok (res_st (review_loop env cycles k s))) /\
  st_cases (res_st (review_loop env cycles k s)) = st_cases s.
Proof.
  induction cycles as [|c rest IH]; intros s.
  - cbn [review_loop]. rewrite (bind_Ok _ _ _ _ _ (print_eq _ s)). unfold ret; cbn [res_st st_code st_cases].
    split; [left; reflexivity|]. split; [|reflexivity]. apply code_ok_eq. reflexivity.
  - cbn [review_loop]. rewrite (bind_Ok _ _ _ _ _ (print_eq _ s)). cbv beta.
    set (s1 := mkSt (st_cases s) (st_code s) (EPrint (PReviewCycle c k) :: st_trace s)).
    pose proof (review_code_files env reviewer_suffix s1) as [F1 F2].
    destruct (review_code env reviewer_suffix s1) as [[passed fb] s2|e s2|s2] eqn:Er;
      cbn [res_st] in F1, F2.
    + rewrite (bind_Ok _ _ _ _ _ Er). cbv beta iota.
      destruct passed.
      * rewrite (bind_Ok _ _ _ _ _ (print_eq _ s2)). unfold ret; cbn [res_st st_code st_cases].
        split; [left; exact F1|]. split; [apply code_ok_eq; exact F1 | exact F2].
      * rewrite (bind_Ok _ _ _ _ _ (print_eq _ s2)). cbv beta.
        rewrite (bind_Ok _ _ _ _ _ (print_eq _ _)). cbv beta.
        set (s4 := mkSt _ _ (EPrint (PFeedback fb) :: _)).
        assert (Hc4 : st_code s4 = st_code s) by exact F1.
        assert (Hk4 : st_cases s4 = st_cases s) by exact F2.
        pose proof (improve_code_files env fb s4) as [I1 [I2 I3]].
        destruct (improve_code env fb s4) as [a s5|e s5|s5] eqn:Ei; cbn [res_st] in I1, I2.
        -- rewrite (bind_Ok _ _ _ _ _ Ei).
           destruct (IH s5) as [H1 [H2 H3]].
           split; [right; exact (H2 (I3 a s5 eq_refl))|].
           split; [intros _; exact (H2 (I3 a s5 eq_refl))|].
           rewrite H3, I2. exact Hk4.
        -- rewrite (bind_Raised _ _ _ _ _ Ei). cbn [res_st].
           destruct I1 as [I1|I1].
           ++ split; [left; rewrite I1; exact Hc4|].
              split; [apply code_ok_eq; rewrite I1; exact Hc4|]. rewrite I2. exact Hk4.
           ++ split; [right; exact I1|]. split; [intros _; exact I1|]. rewrite I2. exact Hk4.
        -- exfalso. exact (proj2 (proj2 (improve_code_counts env fb s4)) s5 Ei).
    + rewrite (bind_Raised _ _ _ _ _ Er). cbn [res_st].
      split; [left; exact F1|]. split; [apply code_ok_eq; exact F1 | exact F2].
    + rewrite (bind_Hung _ _ _ _ Er). cbn [res_st].
      split; [left; exact F1|]. split; [apply code_ok_eq; exact F1 | exact F2].
Qed.

Lemma main_files env cases0 code0 k :
  let r := main env cases0 code0 k in
  (st_code (res_st r) = code0 \/ code_ok (res_st r)) /\
  ((0 < count_in EReview r)%nat -> code_ok (res_st r)) /\
  (st_cases (res_st r) = cases0 \/
   exists x c j, env_xml env = Some x /\ env_extract_llm env (build_prompt x) = LLMText c /\
     env_json_loads env c = Some j /\ st_cases (res_st r) = Some j).
Proof.
  cbv zeta. rewrite main_unfold.
  set (s0 := mkSt cases0 code0 [EPrint PGeneratingCases]).
  pose proof (tc_generator_files env s0) as [G1 G2].
  pose proof (tc_generator_counts env s0) as [_ [T2 [_ T4]]].
  destruct (tc_generator_run env s0) as [u s1|e s1|s1] eqn:Et;
    cbn [res_st] in G1, G2; unfold count_in in T2; cbn [res_st] in T2.
  - rewrite (bind_Ok _ _ _ _ _ Et). rewrite (bind_Ok _ _ _ _ _ (print_eq _ s1)). cbv beta.
    set (s2 := mkSt (st_cases s1) (st_code s1) (EPrint PGeneratingCode :: st_trace s1)).
    pose proof (coder_run_files env s2) as [K1 [K2 K3]].
    pose proof (coder_run_counts env s2) as [_ [C2 C3]].
    destruct (coder_run env s2) as [a s3|e s3|s3] eqn:Ec;
      cbn [res_st] in K1, K2; unfold count_in in C2; cbn [res_st] in C2.
    + rewrite (bind_Ok _ _ _ _ _ Ec).
      destruct (review_loop_files env (py_range 1 (k + 1)) k s3) as [_ [L2 L3]].
      pose proof (L2 (K3 a s3 eq_refl)) as Hok.
      split; [right; exact Hok|]. split; [intros _; exact Hok|].
      rewrite L3, K2. exact G2.
    + rewrite (bind_Raised _ _ _ _ _ Ec). unfold count_in; cbn [res_st].
      split; [destruct K1 as [K1|K1]; [left; rewrite K1; exact G1 | right; exact K1]|].
      split; [|rewrite K2; exact G2].
      intros H. exfalso. rewrite C2 in H. change (count_ev EReview (st_trace s2)) with (count_ev EReview (st_trace s1)) in H.
      rewrite T2 in H. cbn in H. lia.
    + exfalso. exact (C3 s3 eq_refl).
  - rewrite (bind_Raised _ _ _ _ _ Et). unfold count_in; cbn [res_st].
    split; [left; exact G1|]. split; [|exact G2].
    intros H. exfalso. rewrite T2 in H. cbn in H. lia.
  - exfalso. exact (T4 s1 eq_refl).
Qed.

(** X9: at the end of any run the code file holds what it held before the
    run, or a text that [_sanitize_code] leaves unchanged; once a review has
    run, it holds such a sanitized text. *)
Theorem run_code_file_sanitized env cases0 code0 k :
  (st_code (res_st (main env cases0 code0 k)) = code0 \/
   exists c, st_code (res_st (main env cases0 code0 k)) = Some c /\ _sanitize_code c = c) /\
  ((0 < count_in EReview (main env cases0 code0 k))%nat ->
   exists c, st_code (res_st (main env cases0 code0 k)) = Some c /\ _sanitize_code c = c).
Proof.
  destruct (main_files env cases0 code0 k) as [H1 [H2 _]]. split; [exact H1 | exact H2].
Qed.

(** X10: a run writes the case file only with the value [json.loads] gives
    for the extraction reply: at its end the case file holds what it held
    before, or that value. *)
Theorem run_case_file_source env cases0 code0 k :
  st_cases (res_st (main env cases0 code0 k)) = cases0 \/
  exists x c j, env_xml env = Some x /\ env_extract_llm env (build_prompt x) = LLMText c /\
    env_json_loads env c = Some j /\ st_cases (res_st (main env cases0 code0 k)) = Some j.
Proof. exact (proj2 (proj2 (main_files env cases0 code0 k))). Qed.

(** ** Syntheses and reviews in a run *)

Lemma review_loop_balance env cycles k : forall s,
  (forall s', review_loop env cycles k s = Ok LoopBreak s' ->
     (count_ev ESynthesize (st_trace s') + count_ev EReview (st_trace s) + 1 =
      count_ev ESynthesize (st_trace s) + count_ev EReview (st_trace s'))%nat /\
     (count_ev EReview (st_trace s) < count_ev EReview (st_trace s'))%nat) /\
  (forall s', review_loop env cycles k s = Ok LoopExhausted s' ->
     (count_ev ESynthesize (st_trace s') + count_ev EReview (st_trace s) =
      count_ev ESynthesize (st_trace s) + count_ev EReview (st_trace s'))%nat).
Proof.
  induction cycles as [|c rest IH]; intros s.
  - cbn [review_loop]. rewrite (bind_Ok _ _ _ _ _ (print_eq _ s)). unfold ret.
    split; intros s' H; [discriminate|]. injection H as <-. cbn [st_trace].
    rewrite !count_ev_print. lia.
  - cbn [review_loop]. rewrite (bind_Ok _ _ _ _ _ (print_eq _ s)). cbv beta.
    set (s1 := mkSt (st_cases s) (st_code s) (EPrint (PReviewCycle c k) :: st_trace s)).
    assert (C1 : forall ev, count_ev ev (st_trace s1) = count_ev ev (st_trace s))
      by (intros ev; apply count_ev_print).
    pose proof (review_code_counts env reviewer_suffix s1) as [R1 [R2 _]].
    destruct (review_code env reviewer_suffix s1) as [[passed fb] s2|e s2|s2] eqn:Er;
      unfold count_in in R1, R2; cbn [res_st] in R1, R2; rewrite !C1 in R1, R2.
    + rewrite (bind_Ok _ _ _ _ _ Er). cbv beta iota.
      destruct passed.
      * rewrite (bind_Ok _ _ _ _ _ (print_eq _ s2)). unfold ret.
        split; intros s' H; [|discriminate]. injection H as <-. cbn [st_trace].
        rewrite !count_ev_print. lia.
      * rewrite (bind_Ok _ _ _ _ _ (print_eq _ s2)). cbv beta.
        rewrite (bind_Ok _ _ _ _ _ (print_eq _ _)). cbv beta.
        set (s4 := mkSt _ _ (EPrint (PFeedback fb) :: _)).
        assert (C4 : forall ev, count_ev ev (st_trace s4) = count_ev ev (st_trace s2))
          by (intros ev; unfold s4; cbn [st_trace]; rewrite !count_ev_print; reflexivity).
        pose proof (improve_code_counts env fb s4) as [I1 [I2 I3]].
        destruct (improve_code env fb s4) as [a s5|e s5|s5] eqn:Ei.
        -- rewrite (bind_Ok _ _ _ _ _ Ei).
           unfold count_in in I1, I2; cbn [res_st] in I1, I2. rewrite !C4 in I1, I2.
           destruct (IH s5) as [H1 H2].
           split; intros s' H.
           ++ destruct (H1 s' H) as [Ha Hb]. split; lia.
           ++ specialize (H2 s' H). lia.
        -- rewrite (bind_Raised _ _ _ _ _ Ei). split; intros s' H; discriminate.
        -- exfalso. exact (I3 s5 eq_refl).
    + rewrite (bind_Raised _ _ _ _ _ Er). split; intros s' H; discriminate.
    + rewrite (bind_Hung _ _ _ _ Er). split; intros s' H; discriminate.
Qed.

(** X11: a Passed run has performed at least one review and as many
    synthesis invocations as reviews (each failed review is followed by one
    revision); an Exhausted run has performed one synthesis invocation more
    than reviews. *)
Theorem run_synthesis_review_balance env cases0 code0 k :
  (forall s', main env cases0 code0 k = Ok LoopBreak s' ->
     count_ev ESynthesize (st_trace s') = count_ev EReview (st_trace s') /\
     (1 <= count_ev EReview (st_trace s'))%nat) /\
  (forall s', main env cases0 code0 k = Ok LoopExhausted s' ->
     count_ev ESynthesize (st_trace s') = S (count_ev EReview (st_trace s'))).
Proof.
  rewrite main_unfold.
  set (s0 := mkSt cases0 code0 [EPrint PGeneratingCases]).
  pose proof (tc_generator_counts env s0) as [T1 [T2 [_ T4]]].
  destruct (tc_generator_run env s0) as [u s1|e s1|s1] eqn:Et;
    unfold count_in in T1, T2; cbn [res_st] in T1, T2.
  - rewrite (bind_Ok _ _ _ _ _ Et). rewrite (bind_Ok _ _ _ _ _ (print_eq _ s1)). cbv beta.
    set (s2 := mkSt (st_cases s1) (st_code s1) (EPrint PGeneratingCode :: st_trace s1)).
    pose proof (coder_run_counts env s2) as [K1 [K2 K3]].
    destruct (coder_run env s2) as [a s3|e s3|s3] eqn:Ec;
      unfold count_in in K1, K2; cbn [res_st] in K1, K2.
    + rewrite (bind_Ok _ _ _ _ _ Ec).
      change (count_ev ESynthesize (st_trace s2)) with (count_ev ESynthesize (st_trace s1)) in K1.
      change (count_ev EReview (st_trace s2)) with (count_ev EReview (st_trace s1)) in K2.
      rewrite T1 in K1. rewrite T2 in K2. cbn in K1, K2.
      destruct (review_loop_balance env (py_range 1 (k + 1)) k s3) as [B1 B2].
      split; intros s' H.
      * destruct (B1 s' H) as [Ha Hb]. rewrite K1, K2 in Ha. rewrite K2 in Hb. lia.
      * specialize (B2 s' H). rewrite K1, K2 in B2. lia.
    + rewrite (bind_Raised _ _ _ _ _ Ec). split; intros s' H; discriminate.
    + exfalso. exact (K3 s3 eq_refl).
  - rewrite (bind_Raised _ _ _ _ _ Et). split; intros s' H; discriminate.
  - exfalso. exact (T4 s1 eq_refl).
Qed.

(** X12: the revision builds its prompt from the code the previous synthesis
    wrote, as [read_text] gives it back: after [coder.run] saves the
    sanitized reply [t], [improve_code] sends
    [improve_prompt feedback (translate_newlines (_sanitize_code t))] (each
    ["\r\n"] and ["\r"] of the saved code read as ["\n"]), writes the
    sanitized new reply to the code path and leaves the case file as it was. *)
Theorem improve_uses_saved_code env s j t :
  st_cases s = Some j -> env_gen_llm env j = LLMText t ->
  exists s1, coder_run env s = Ok code_path s1 /\ st_code s1 = Some (_sanitize_code t) /\
    forall fb t2,
      env_improve_llm env (count_ev ESynthLLM (st_trace s1))
        (improve_prompt fb (translate_newlines (_sanitize_code t))) = LLMText t2 ->
      exists s2, improve_code env fb s1 = Ok code_path s2 /\
        st_code s2 = Some (_sanitize_code t2) /\ st_cases s2 = Some j.
Proof.
  intros Hc Hg. unfold coder_run, _load_test_cases, _generate_code, _save_code. unfold_monad.
  cbn [st_cases st_code st_trace]. rewrite Hc. cbn [st_cases st_code st_trace]. rewrite Hg.
  eexists. split; [reflexivity|]. split; [reflexivity|].
  intros fb t2 Hi. cbn [st_cases st_code st_trace] in Hi. unfold improve_code, _save_code. unfold_monad. cbv zeta.
  cbn [st_cases st_code st_trace].
  change (count_ev ESynthLLM (ESynthesize :: ?t)) with (count_ev ESynthLLM t).
  rewrite Hi. eexists. split; [reflexivity|]. split; reflexivity.
Qed.

Lemma improve_uses_saved_code_witness :
  exists s1, coder_run env_crlf (mkSt (Some (JDict [])) None []) = Ok code_path s1 /\
    st_code s1 = Some (_sanitize_code (lit "a();" ++ [13; 10] ++ lit "b();")) /\
    forall fb t2,
      env_improve_llm env_crlf (count_ev ESynthLLM (st_trace s1))
        (improve_prompt fb (translate_newlines (_sanitize_code (lit "a();" ++ [13; 10] ++ lit "b();")))) =
        LLMText t2 ->
      exists s2, improve_code env_crlf fb s1 = Ok code_path s2 /\
        st_code s2 = Some (_sanitize_code t2) /\ st_cases s2 = Some (JDict []).
Proof.
  exact (improve_uses_saved_code env_crlf (mkSt (Some (JDict [])) None []) (JDict [])
           (lit "a();" ++ [13; 10] ++ lit "b();") eq_refl eq_refl).
Defined.

(** ** [load_json_to_dict] *)


(** ** Decoding the runner's output *)

Lemma bv_byte_of_Z (z : Z) : 0 <= z < 256 -> bv (byte_of_Z z) = z.
Proof.
  intros Hz. unfold byte_of_Z, bv.
  destruct (Byte.of_N (Z.to_N z)) as [b|] eqn:E.
  - apply Byte.to_of_N in E. rewrite E. apply Z2N.id. lia.
  - apply Byte.of_N_None_iff in E. lia.
Qed.

Lemma land_ones_mod (x : Z) n : 0 <= n -> Z.land x (Z.ones n) = x mod 2 ^ n.
Proof. intros Hn. apply Z.land_ones. exact Hn. Qed.

Lemma lor_shiftl_add (a b : Z) n :
  0 <= n -> 0 <= b < 2 ^ n -> Z.lor (Z.shiftl a n) b = a * 2 ^ n + b.
Proof.
  intros Hn Hb. rewrite <- Z.shiftl_mul_pow2 by exact Hn.
  assert (Hl : Z.land (Z.shiftl a n) b = 0).
  { apply Z.bits_inj'. intros i Hi. rewrite Z.land_spec, Z.bits_0.
    destruct (Z.lt_ge_cases i n) as [H|H].
    - rewrite Z.shiftl_spec_low by exact H. reflexivity.
    - rewrite <- (Z.mod_small b (2 ^ n)) by exact Hb.
      rewrite Z.mod_pow2_bits_high by lia. apply andb_false_r. }
  rewrite <- Z.lxor_lor by exact Hl. rewrite Z.add_nocarry_lxor by exact Hl. reflexivity.
Qed.

Lemma cont_bits_byte (m : Z) : 0 <= m < 64 -> cont_bits (byte_of_Z (128 + m)) = m.
Proof.
  intros Hm. unfold cont_bits. rewrite bv_byte_of_Z by lia.
  change 63 with (Z.ones 6). rewrite land_ones_mod by lia.
  change (2 ^ 6) with 64. Z.div_mod_to_equations. lia.
Qed.

Lemma in_range_byte (lo hi z : Z) :
  0 <= z < 256 -> in_range lo hi (byte_of_Z z) = (lo <=? z) && (z <=? hi).
Proof. intros Hz. unfold in_range. rewrite bv_byte_of_Z by exact Hz. reflexivity. Qed.

Lemma utf8_val2 (c : Z) : 128 <= c < 2048 ->
  Z.lor (Z.shiftl (Z.land (192 + c / 64) 31) 6) (Z.land (128 + c mod 64) 63) = c.
Proof.
  intros Hc. change 31 with (Z.ones 5). change 63 with (Z.ones 6).
  rewrite !land_ones_mod by lia.
  rewrite (lor_shiftl_add _ _ 6); [|lia|apply Z.mod_pos_bound; lia].
  change (2 ^ 5) with 32. change (2 ^ 6) with 64. Z.div_mod_to_equations. lia.
Qed.

Lemma utf8_val3 (c : Z) : 2048 <= c < 65536 ->
  Z.lor (Z.shiftl (Z.land (224 + c / 4096) 15) 12)
        (Z.lor (Z.shiftl (Z.land (128 + (c / 64) mod 64) 63) 6) (Z.land (128 + c mod 64) 63)) = c.
Proof.
  intros Hc. change 15 with (Z.ones 4). change 63 with (Z.ones 6).
  rewrite !land_ones_mod by lia.
  rewrite (lor_shiftl_add _ _ 6); [|lia|apply Z.mod_pos_bound; lia].
  rewrite (lor_shiftl_add _ _ 12); [|lia|].
  - change (2 ^ 4) with 16. change (2 ^ 6) with 64. change (2 ^ 12) with 4096.
    Z.div_mod_to_equations. lia.
  - change (2 ^ 6) with 64. change (2 ^ 12) with 4096. Z.div_mod_to_equations. lia.
Qed.

Lemma utf8_val4 (c : Z) : 65536 <= c < 1114112 ->
  Z.lor (Z.shiftl (Z.land (240 + c / 262144) 7) 18)
        (Z.lor (Z.shiftl (Z.land (128 + (c / 4096) mod 64) 63) 12)
               (Z.lor (Z.shiftl (Z.land (128 + (c / 64) mod 64) 63) 6) (Z.land (128 + c mod 64) 63))) = c.
Proof.
  intros Hc. change 7 with (Z.ones 3). change 63 with (Z.ones 6).
  rewrite !land_ones_mod by lia.
  rewrite (lor_shiftl_add _ _ 6); [|lia|apply Z.mod_pos_bound; lia].
  rewrite (lor_shiftl_add _ _ 12); [|lia|].
  - rewrite (lor_shiftl_add _ _ 18); [|lia|].
    + change (2 ^ 3) with 8. change (2 ^ 6) with 64. change (2 ^ 12) with 4096.
      change (2 ^ 18) with 262144. Z.div_mod_to_equations. lia.
    + change (2 ^ 6) with 64. change (2 ^ 12) with 4096.
      change (2 ^ 18) with 262144. Z.div_mod_to_equations. lia.
  - change (2 ^ 6) with 64. change (2 ^ 12) with 4096. Z.div_mod_to_equations. lia.
Qed.

Ltac zsplit :=
  repeat (cbn [andb orb negb] in *;
          match goal with
          | |- context [?a =? ?b] => destruct (Z.eqb_spec a b); try (exfalso; lia)
          | |- context [?a <? ?b] => destruct (Z.ltb_spec a b); try (exfalso; lia)
          | |- context [?a <=? ?b] => destruct (Z.leb_spec a b); try (exfalso; lia)
          end); cbn [andb orb negb].

Lemma utf8_decode_char (c : Z) (rest : list Byte.byte) :
  is_scalar c = true ->
  utf8_decode (utf8_encode_char c ++ rest) = option_map (cons c) (utf8_decode rest).
Proof.
  intros Hs. unfold is_scalar in Hs.
  destruct (Z.leb_spec 0 c); [|discriminate]. destruct (Z.ltb_spec c 1114112); [|discriminate].
  destruct (Z.leb_spec 55296 c); destruct (Z.leb_spec c 57343); try discriminate; clear Hs;
  unfold utf8_encode_char;
  (destruct (Z.ltb_spec c 128);
   [|destruct (Z.ltb_spec c 2048); [|destruct (Z.ltb_spec c 65536)]]);
  cbn [app utf8_decode]; unfold in_range, cont_bits;
  rewrite !bv_byte_of_Z by (Z.div_mod_to_equations; lia);
  first [ pose proof (utf8_val2 c ltac:(lia)) as V
        | pose proof (utf8_val3 c ltac:(lia)) as V
        | pose proof (utf8_val4 c ltac:(lia)) as V
        | idtac ];
  Z.div_mod_to_equations; zsplit; congruence.
Qed.

Lemma utf8_decode_encode (t : pystr) :
  forallb is_scalar t = true -> utf8_decode (utf8_encode t) = Some t.
Proof.
  induction t as [|c t IH]; intros H; [reflexivity|].
  cbn [forallb] in H. apply andb_prop in H as [Hc Ht].
  unfold utf8_encode. cbn [flat_map]. fold (utf8_encode t).
  rewrite utf8_decode_char by exact Hc. rewrite IH by exact Ht. reflexivity.
Qed.

(** X14: when the test runner exits non-zero, the review feedback is exactly
    the text the runner printed: for any string [text] of Unicode scalar
    values, a runner output of [text] encoded in UTF-8 comes back as
    [(False, text)], through [output.decode()], with no static review. *)
Theorem review_feedback_is_runner_text env suffix s code text :
  forallb is_scalar text = true ->
  env_proc env (adapter_index s) = PExit code (utf8_encode text) -> code <> 0 ->
  review_code env suffix s =
  Ok (false, text) (mkSt (st_cases s) (st_code s) (EAdapter :: EReview :: st_trace s)).
Proof.
  intros Ht Hp Hc. rewrite review_code_eq. cbv zeta. unfold adapter_outcome.
  rewrite Hp. apply Z.eqb_neq in Hc. rewrite Hc, utf8_decode_encode by exact Ht.
  reflexivity.
Qed.

Lemma review_feedback_is_runner_text_witness :
  review_code (env_with (fun _ => PExit 1 (utf8_encode ([10008; 233; 128512] ++ lit " 1 failed")))
                        (fun _ => LLMText [])) (lit ".ts") st0 =
  Ok (false, [10008; 233; 128512] ++ lit " 1 failed") (mkSt None None [EAdapter; EReview]).
Proof.
  apply (review_feedback_is_runner_text _ _ st0 1); [reflexivity | reflexivity | lia].
Defined.
